(** * A shallow embedding of the preprocessing helpers of bcdi
    (src/bcdi/preprocessing/bcdi_utils.py) and of two steps of
    src/bcdi/postprocessing/process_scan.py.

    Python integers are [Z], Python/numpy floats are [Q] (the claims are
    about control flow, shapes and exact algebra, not rounding), a raised
    Python exception is the [Raise] branch of the [res] monad. A 3D numpy
    array is its shape and its index-to-value map. *)

From Stdlib Require Import ZArith QArith Qabs Qround List String Bool Lia.
Import ListNotations.

Open Scope Z_scope.

(* ------------------------------------------------------------------ *)
(** ** Python exceptions and the error monad *)

Inductive exn : Type :=
  | IndexError (where_ : string)
  | ValueError (msg : string)
  | KeyError (key : string)
  | TypeError (msg : string)
  | ZeroDivisionError.

Inductive res (A : Type) : Type :=
  | Ok (a : A)
  | Raise (e : exn).
Arguments Ok {A} a.
Arguments Raise {A} e.

Definition bind {A B : Type} (m : res A) (k : A -> res B) : res B :=
  match m with
  | Ok a => k a
  | Raise e => Raise e
  end.

Notation "x <- m ;; k" := (bind m (fun x => k))
  (at level 61, m at next level, right associativity).
Notation "' p <- m ;; k" := (bind m (fun x => match x with p => k end))
  (at level 61, p pattern, m at next level, right associativity).
Notation "m ;;; k" := (bind m (fun _ => k))
  (at level 61, right associativity).

Definition is_ok {A} (r : res A) : bool :=
  match r with Ok _ => true | Raise _ => false end.

(* ------------------------------------------------------------------ *)
(** ** Python and numpy primitives *)

(** [a // b] on Python integers: floor division, [ZeroDivisionError] on 0. *)
Definition py_floordiv (a b : Z) : res Z :=
  if b =? 0 then Raise ZeroDivisionError else Ok (a / b).

(** Python/numpy integer indexing of a sequence of length [n]:
    negative indices count from the end, anything else is an [IndexError]. *)
Definition py_index (what : string) (n i : Z) : res Z :=
  if (0 <=? i) && (i <? n) then Ok i
  else if (- n <=? i) && (i <? 0) then Ok (i + n)
  else Raise (IndexError what).

Definition py_get {A} (what : string) (l : list A) (i : Z) : res A :=
  j <- py_index what (Z.of_nat (List.length l)) i ;;
  match nth_error l (Z.to_nat j) with
  | Some a => Ok a
  | None => Raise (IndexError what)
  end.

(** Normalisation of the bounds of a step-1 slice [start:stop] on a
    sequence of length [n]: the first index and the length of the slice. *)
Definition py_clip (n i : Z) : Z :=
  if i <? 0 then Z.max 0 (i + n) else Z.min i n.

Definition py_slice_bounds (n start stop : Z) : Z * Z :=
  let s := py_clip n start in
  let e := py_clip n stop in
  (s, Z.max 0 (e - s)).

Definition zrange (n : Z) : list Z := map Z.of_nat (seq 0 (Z.to_nat n)).

(** [l[start:stop]] *)
Definition py_slice {A} (l : list A) (start stop : Z) : list A :=
  let '(s, len) := py_slice_bounds (Z.of_nat (List.length l)) start stop in
  firstn (Z.to_nat len) (skipn (Z.to_nat s) l).

(** [a[start:stop] = v] for a numpy array [a] and a scalar [v]. *)
Definition py_fill {A} (l : list A) (start stop : Z) (v : A) : list A :=
  let '(s, len) := py_slice_bounds (Z.of_nat (List.length l)) start stop in
  map (fun '(i, x) => if (s <=? i) && (i <? s + len) then v else x)
      (combine (zrange (Z.of_nat (List.length l))) l).

(** [a[start:stop] = src] for 1D numpy arrays: [src] must have the length
    of the slice or length 1 (broadcast), else numpy raises [ValueError]. *)
Definition py_assign {A} (l : list A) (start stop : Z) (src : list A)
    : res (list A) :=
  let '(s, len) := py_slice_bounds (Z.of_nat (List.length l)) start stop in
  let m := Z.of_nat (List.length src) in
  if (m =? len) || (m =? 1) then
    Ok (map (fun '(i, x) =>
               if (s <=? i) && (i <? s + len) then
                 nth (Z.to_nat (if m =? 1 then 0 else i - s)) src x
               else x)
            (combine (zrange (Z.of_nat (List.length l))) l))
  else Raise (ValueError "could not broadcast input array").

Definition Qlt_bool (a b : Q) : bool := negb (Qle_bool b a).

(** [int(x)] on a float: truncation toward zero. *)
Definition py_int (q : Q) : Z :=
  if Qle_bool 0 q then Qfloor q else - Qfloor (- q)%Q.

(** [round(x)] / [np.rint(x)] on a float: round half to even. *)
Definition round_half_even (q : Q) : Z :=
  let f := Qfloor q in
  let r := (q - inject_Z f)%Q in
  if Qlt_bool r (1 # 2) then f
  else if Qlt_bool (1 # 2) r then f + 1
  else if Z.even f then f else f + 1.

(** A Python number produced by the centering code: an integer, a finite
    float, or a non-finite float (NaN or infinity of a 0-mass centroid). *)
Inductive num : Type :=
  | NInt (z : Z)
  | NFlt (q : Q)
  | NNonFinite.

(** [int(round(x))] and [int(np.rint(x))] *)
Definition int_round (x : num) : res Z :=
  match x with
  | NInt z => Ok z
  | NFlt q => Ok (round_half_even q)
  | NNonFinite => Raise (ValueError "cannot convert float NaN to integer")
  end.

(* ------------------------------------------------------------------ *)
(** ** 3D arrays *)

Record arr3 (A : Type) : Type := mk_arr3 {
  nz : Z; ny : Z; nx : Z;
  cell : Z -> Z -> Z -> A
}.
Arguments mk_arr3 {A}. Arguments nz {A}. Arguments ny {A}.
Arguments nx {A}. Arguments cell {A}.

Definition size3 {A} (a : arr3 A) : Z := nz a * ny a * nx a.

(** [a[iz, iy, ix]] *)
Definition getitem3 {A} (a : arr3 A) (p : Z * Z * Z) : res A :=
  let '(iz, iy, ix) := p in
  z <- py_index "array[iz, iy, ix]" (nz a) iz ;;
  y <- py_index "array[iz, iy, ix]" (ny a) iy ;;
  x <- py_index "array[iz, iy, ix]" (nx a) ix ;;
  Ok (cell a z y x).

(** [np.unravel_index(abs(a).argmax(), a.shape)]: the first (C order)
    position of the largest modulus; [ValueError] on an empty array. *)
Definition argmax_abs (a : arr3 Q) : res (Z * Z * Z) :=
  if size3 a =? 0 then Raise (ValueError "attempt to get argmax of an empty sequence")
  else
    let idx := flat_map (fun z => flat_map (fun y => map (fun x => (z, y, x))
                 (zrange (nx a))) (zrange (ny a))) (zrange (nz a)) in
    let pick := fun (best : Z * Z * Z) (p : Z * Z * Z) =>
      let '(bz, by_, bx) := best in let '(z, y, x) := p in
      if Qlt_bool (Qabs (cell a bz by_ bx)) (Qabs (cell a z y x)) then p else best in
    Ok (fold_left pick idx (0, 0, 0)).

Definition qsum (l : list Q) : Q := fold_right Qplus 0%Q l.

(** [scipy.ndimage.center_of_mass(a)] *)
Definition center_of_mass3 (a : arr3 Q) : num * num * num :=
  let idx := flat_map (fun z => flat_map (fun y => map (fun x => (z, y, x))
               (zrange (nx a))) (zrange (ny a))) (zrange (nz a)) in
  let w := fun p => let '(z, y, x) := p in cell a z y x in
  let total := qsum (map w idx) in
  if Qeq_bool total 0 then (NNonFinite, NNonFinite, NNonFinite)
  else
    let mom := fun (f : Z * Z * Z -> Z) =>
      NFlt (qsum (map (fun p => inject_Z (f p) * w p) idx) / total)%Q in
    (mom (fun p => fst (fst p)), mom (fun p => snd (fst p)), mom (fun p => snd p)).

(** [scipy.ndimage.center_of_mass(a[z, :, :])] *)
Definition center_of_mass2 (a : arr3 Q) (z : Z) : num * num :=
  let idx := flat_map (fun y => map (fun x => (y, x)) (zrange (nx a)))
               (zrange (ny a)) in
  let w := fun p => cell a z (fst p) (snd p) in
  let total := qsum (map w idx) in
  if Qeq_bool total 0 then (NNonFinite, NNonFinite)
  else
    (NFlt (qsum (map (fun p => inject_Z (fst p) * w p) idx) / total)%Q,
     NFlt (qsum (map (fun p => inject_Z (snd p) * w p) idx) / total)%Q).

(* ------------------------------------------------------------------ *)
(** ** PeakFinder (bcdi_utils.py, class PeakFinder)

    The [region_of_interest] and [binning] setters validate a list of four
    integers and a list of [array.ndim = 3] integers; the model takes them
    as tuples of that size. *)

Module PeakFinder.

Definition PEAK_METHODS : list string := ["max"; "com"; "max_com"; "user"; "skip"]%string.

Record t : Type := mk {
  array : arr3 Q;
  region_of_interest : Z * Z * Z * Z;
  binning : Z * Z * Z;
  peak_method : string;
  peaks : list (string * (Z * Z * Z));
  detector_data_at_peak : Z -> Z -> Q
}.

(** [_offset]: add ([full_detector]) or subtract ([region_of_interest]) the
    ROI origin on the two detector axes. *)
Definition _offset (roi : Z * Z * Z * Z) (peak : Z * Z * Z) (frame : string)
    : res (Z * Z * Z) :=
  let '(y0, _, x0, _) := roi in
  let '(p0, p1, p2) := peak in
  if (frame =? "full_detector")%string then Ok (p0, p1 + 1 * y0, p2 + 1 * x0)
  else if (frame =? "region_of_interest")%string then Ok (p0, p1 + -1 * y0, p2 + -1 * x0)
  else Raise (ValueError "allowed values 'full_detector' and 'region_of_interest'").

(** [_bin]: [[a // b for a, b in zip(peak, self.binning)]] *)
Definition _bin (binning : Z * Z * Z) (peak : Z * Z * Z) : res (Z * Z * Z) :=
  let '(b0, b1, b2) := binning in
  let '(p0, p1, p2) := peak in
  a0 <- py_floordiv p0 b0 ;;
  a1 <- py_floordiv p1 b1 ;;
  a2 <- py_floordiv p2 b2 ;;
  Ok (a0, a1, a2).

(** [_unbin]: [[a * b for a, b in zip(peak, self.binning)]] *)
Definition _unbin (binning : Z * Z * Z) (peak : Z * Z * Z) : Z * Z * Z :=
  let '(b0, b1, b2) := binning in
  let '(p0, p1, p2) := peak in
  (p0 * b0, p1 * b1, p2 * b2).

Definition get_indices_full_detector (roi : Z * Z * Z * Z) (binning : Z * Z * Z)
    (position : Z * Z * Z) : res (Z * Z * Z) :=
  _offset roi (_unbin binning position) "full_detector".

Definition get_indices_cropped_binned_detector (roi : Z * Z * Z * Z)
    (binning : Z * Z * Z) (position : Z * Z * Z) : res (Z * Z * Z) :=
  cropped <- _offset roi position "region_of_interest" ;;
  _bin binning cropped.

(** [find_peak] *)
Definition find_peak (arr : arr3 Q) (roi : Z * Z * Z * Z) (binning : Z * Z * Z)
    : res (list (string * (Z * Z * Z))) :=
  position_max <- argmax_abs arr ;;
  getitem3 arr position_max ;;;
  let '(cz, cy, cx) := center_of_mass3 arr in
  z <- int_round cz ;; y <- int_round cy ;; x <- int_round cx ;;
  let position_com := (z, y, x) in
  getitem3 arr position_com ;;;
  '(mz, _, _) <- argmax_abs arr ;;
  let '(my, mx) := center_of_mass2 arr mz in
  y' <- int_round my ;; x' <- int_round mx ;;
  let position_max_com := (mz, y', x') in
  getitem3 arr position_max_com ;;;
  p_max <- get_indices_full_detector roi binning position_max ;;
  p_com <- get_indices_full_detector roi binning position_com ;;
  p_max_com <- get_indices_full_detector roi binning position_max_com ;;
  Ok [("max", p_max); ("com", p_com); ("max_com", p_max_com)]%string.

(** [self.peaks[key]] on the dict returned by [find_peak] *)
Fixpoint dict_get (d : list (string * (Z * Z * Z))) (key : string) : res (Z * Z * Z) :=
  match d with
  | [] => Raise (KeyError key)
  | (k, v) :: d' => if (k =? key)%string then Ok v else dict_get d' key
  end.

(** [bragg_peak] property *)
Definition bragg_peak (pf : t) : res (Z * Z * Z) := dict_get (peaks pf) (peak_method pf).

(** [_roi_center] property, evaluated on the fields [__init__] has set. *)
Definition _roi_center (roi : Z * Z * Z * Z) (binning : Z * Z * Z)
    (peaks : list (string * (Z * Z * Z))) (peak_method : string) : res (Z * Z * Z) :=
  '(bp0, bp1, bp2) <- dict_get peaks peak_method ;;
  let '(y0, _, x0, _) := roi in
  let '(_, b1, b2) := binning in
  c1 <- py_floordiv (bp1 - y0) b1 ;;
  c2 <- py_floordiv (bp2 - x0) b2 ;;
  Ok (bp0, c1, c2).

(** [__init__]: [None] for [region_of_interest] and [binning] selects the
    defaults [[0, shape[1], 0, shape[2]]] and [[1, 1, 1]]. *)
Definition init (arr : arr3 Q) (region_of_interest : option (Z * Z * Z * Z))
    (binning : option (Z * Z * Z)) (peak_method : string) : res t :=
  let roi := match region_of_interest with
             | Some r => r | None => (0, ny arr, 0, nx arr) end in
  let bin := match binning with Some b => b | None => (1, 1, 1) end in
  (if existsb (String.eqb peak_method) PEAK_METHODS then Ok tt
   else Raise (ValueError "allowed peak methods")) ;;;
  peaks <- find_peak arr roi bin ;;
  '(rc0, _, _) <- _roi_center roi bin peaks peak_method ;;
  z <- py_index "self.array[self._roi_center[0], :, :]" (nz arr) rc0 ;;
  Ok (mk arr roi bin peak_method peaks (cell arr z)).

End PeakFinder.

(* ------------------------------------------------------------------ *)
(** ** FFT-compatible sizes *)

(** Divide out every factor [p] of [m]. *)
Fixpoint strip_factor (fuel : nat) (p m : Z) : Z :=
  match fuel with
  | O => m
  | S f => if (0 <? m) && (m mod p =? 0) then strip_factor f p (m / p) else m
  end.

(** An FFT-compatible size: positive, even, no prime factor above 7. *)
Definition fft_ok (m : Z) : bool :=
  let fuel := Z.to_nat m in
  (0 <? m) && Z.even m &&
  (strip_factor fuel 7 (strip_factor fuel 5 (strip_factor fuel 3
     (strip_factor fuel 2 m))) =? 1).

Fixpoint search_up (fuel : nat) (m : Z) : Z :=
  if fft_ok m then m
  else match fuel with O => 0 | S f => search_up f (m + 1) end.

Fixpoint search_down (fuel : nat) (m : Z) : res Z :=
  if m <? 2 then Raise (ValueError "no FFT-compatible size below the input")
  else if fft_ok m then Ok m
  else match fuel with
       | O => Raise (ValueError "no FFT-compatible size below the input")
       | S f => search_down f (m - 1)
       end.

(** Modelled from the spec: [util.higher_primes(n, maxprime=7,
    required_dividers=(2,))] of bcdi.utils.utilities (not under src/), the
    smallest FFT-compatible size (largest prime factor at most 7, divisible
    by 2) that is at least [n]. A power of two in [[n, 2n)] bounds the
    search. *)
Definition higher_primes (n : Z) : Z :=
  if n <=? 2 then 2 else search_up (Z.to_nat n) n.

(** Modelled from the spec: [util.smaller_primes(n, maxprime=7,
    required_dividers=(2,))] of bcdi.utils.utilities (not under src/), the
    largest FFT-compatible size at most [n]; there is none below 2, which
    the model reports as a [ValueError]. *)
Definition smaller_primes (n : Z) : res Z := search_down (Z.to_nat n) n.

(* ------------------------------------------------------------------ *)
(** ** center_fft (bcdi_utils.py) *)

(** The attributes of [detector] read by [center_fft]. *)
Record detector : Type := mk_detector {
  roi : list Z;
  preprocessing_binning : list Z;
  det_binning : list Z
}.

(** [data[z0:z1, y0:y1, x0:x1]]; [:] is the slice [0:n]. *)
Definition slice3 {A} (a : arr3 A) (z0 z1 y0 y1 x0 x1 : Z) : arr3 A :=
  let '(sz, lz) := py_slice_bounds (nz a) z0 z1 in
  let '(sy, ly) := py_slice_bounds (ny a) y0 y1 in
  let '(sx, lx) := py_slice_bounds (nx a) x0 x1 in
  mk_arr3 lz ly lx (fun z y x => cell a (z + sz) (y + sy) (x + sx)).

Definition in_window (s len i : Z) : bool := (s <=? i) && (i <? s + len).

(** [zero_pad(array, padding_width, mask_flag)]: a new array of ones
    ([mask_flag]) or zeros, into whose slice
    [[pw0 : pw0 + nbz, pw2 : pw2 + nby, pw4 : pw4 + nbx]] the input is
    assigned with numpy broadcasting. *)
Definition zero_pad (a : arr3 Q) (padding_width : list Z) (mask_flag : bool)
    : res (arr3 Q) :=
  p0 <- py_get "padding_width[0]" padding_width 0 ;;
  p1 <- py_get "padding_width[1]" padding_width 1 ;;
  p2 <- py_get "padding_width[2]" padding_width 2 ;;
  p3 <- py_get "padding_width[3]" padding_width 3 ;;
  p4 <- py_get "padding_width[4]" padding_width 4 ;;
  p5 <- py_get "padding_width[5]" padding_width 5 ;;
  let lz := nz a + p0 + p1 in
  let ly := ny a + p2 + p3 in
  let lx := nx a + p4 + p5 in
  if (lz <? 0) || (ly <? 0) || (lx <? 0) then
    Raise (ValueError "negative dimensions are not allowed")
  else
    let fill := if mask_flag then 1%Q else 0%Q in
    let '(sz, wz) := py_slice_bounds lz p0 (p0 + nz a) in
    let '(sy, wy) := py_slice_bounds ly p2 (p2 + ny a) in
    let '(sx, wx) := py_slice_bounds lx p4 (p4 + nx a) in
    let fits := fun n w => (n =? w) || (n =? 1) in
    let src := fun n s i => if n =? 1 then 0 else i - s in
    if fits (nz a) wz && fits (ny a) wy && fits (nx a) wx then
      Ok (mk_arr3 lz ly lx (fun z y x =>
            if in_window sz wz z && in_window sy wy y && in_window sx wx x
            then cell a (src (nz a) sz z) (src (ny a) sy y) (src (nx a) sx x)
            else fill))
    else Raise (ValueError "could not broadcast input array").

Definition zeros6 : list Z := [0; 0; 0; 0; 0; 0].

(** Python [min(a, b)] *)
Definition py_min (a b : Q) : Q := if Qlt_bool b a then b else a.

(** [int(min(pad_size / 2 - c, pad_size - n))] *)
Definition sym_pad_lo (p c n : Z) : Z :=
  py_int (py_min (inject_Z p / 2 - inject_Z c) (inject_Z (p - n)))%Q.

(** [int(min(pad_size / 2 - n + c, pad_size - n))] *)
Definition sym_pad_hi (p c n : Z) : Z :=
  py_int (py_min (inject_Z p / 2 - inject_Z n + inject_Z c) (inject_Z (p - n)))%Q.

(** [int((n1 - n + ((n1 - n) % 2)) / 2)] *)
Definition asym_pad_lo (n1 n : Z) : Z :=
  py_int (inject_Z (n1 - n + (n1 - n) mod 2) / 2)%Q.

(** [int((n1 - n + 1) / 2 - ((n1 - n) % 2))] *)
Definition asym_pad_hi (n1 n : Z) : Z :=
  py_int (inject_Z (n1 - n + 1) / 2 - inject_Z ((n1 - n) mod 2))%Q.

(** [temp_frames = -1 * np.ones(len_new)];
    [temp_frames[pw0 : pw0 + nbz] = frames_logical] *)
Definition pad_frames (len_new pw0 nbz : Z) (frames_logical : list Z) : res (list Z) :=
  py_assign (repeat (-1) (Z.to_nat len_new)) pw0 (pw0 + nbz) frames_logical.

(** [dq = q[1] - q[0]] *)
Definition q_step (q : list Q) : res Q :=
  q1 <- py_get "q[1]" q 1 ;; q0 <- py_get "q[0]" q 0 ;; Ok (q1 - q0)%Q.

(** [q0 = q[0] - pw * dq]; [q0 + np.arange(n) * dq] *)
Definition q_extend (q : list Q) (dq : Q) (pw n : Z) : res (list Q) :=
  q0 <- py_get "q[0]" q 0 ;;
  Ok (map (fun i => q0 - inject_Z pw * dq + inject_Z i * dq)%Q (zrange n)).

Definition check_len3 (msg : string) (pad_size : list Z) : res unit :=
  if Z.of_nat (List.length pad_size) =? 3 then Ok tt else Raise (ValueError msg).

(** [if pad_size[i] != util.higher_primes(pad_size[i], ...): raise ValueError] *)
Definition check_fft (msg : string) (p : Z) : res unit :=
  if p =? higher_primes p then Ok tt else Raise (ValueError msg).

Definition has_q (q_values : option (list (list Q))) : bool :=
  match q_values with Some _ => true | None => false end.

(** Python truthiness of [q_values] in [if q_values:] *)
Definition q_truthy (q_values : option (list (list Q))) : bool :=
  match q_values with Some (_ :: _) => true | _ => false end.

(** [qx, qz, qy = q_values[0], q_values[1], q_values[2]], or three empty
    lists when [q_values is None]; the kwarg defaults to [[]]. *)
Definition unpack_q (q_values : option (list (list Q))) : res (list Q * list Q * list Q) :=
  match q_values with
  | Some qv =>
      qx <- py_get "q_values[0]" qv 0 ;;
      qz <- py_get "q_values[1]" qv 1 ;;
      qy <- py_get "q_values[2]" qv 2 ;;
      Ok (qx, qz, qy)
  | None => Ok ([], [], [])
  end.

(** The final [q_values = list(q_values); q_values[0] = qx; ...]. *)
Definition repack_q (q_values : option (list (list Q))) (qx qz qy : list Q)
    : option (list (list Q)) :=
  match q_values with
  | None => None
  | Some qv => Some (qx :: qz :: qy :: skipn 3 qv)
  end.

(** Steps 1 of [center_fft]: the centering method, then [fix_bragg]
    remapped through the detector ROI and binning, then
    [int(round(.))]. The log lines that index the q vectors are kept since
    they can raise. *)
Definition resolve_center (data : arr3 Q) (det : detector) (centering : string)
    (fix_bragg : list Z) (q_values : option (list (list Q))) (qx qz qy : list Q)
    : res (Z * Z * Z) :=
  '(z0, y0, x0) <-
    (if (centering =? "max")%string then
       '(z, y, x) <- argmax_abs data ;;
       (if q_truthy q_values then
          py_get "qx[z0]" qx z ;;; py_get "qz[y0]" qz y ;;; py_get "qy[x0]" qy x ;;; Ok tt
        else Ok tt) ;;;
       Ok (NInt z, NInt y, NInt x)
     else if (centering =? "com")%string then
       let c := center_of_mass3 data in
       (if q_truthy q_values then Raise (IndexError "qx[z0] with a float index")
        else Ok tt) ;;;
       Ok c
     else
       '(pz, _, _) <- argmax_abs data ;;
       let '(cy, cx) := center_of_mass2 data pz in
       y <- int_round cy ;; x <- int_round cx ;;
       Ok (NInt pz, NInt y, NInt x)) ;;
  '(z0, y0, x0) <-
    (match fix_bragg with
     | [] => Ok (z0, y0, x0)
     | [fz; fy; fx] =>
         r0 <- py_get "detector.roi[0]" (roi det) 0 ;;
         pb1 <- py_get "detector.preprocessing_binning[1]" (preprocessing_binning det) 1 ;;
         b1 <- py_get "detector.binning[1]" (det_binning det) 1 ;;
         (if pb1 * b1 =? 0 then Raise ZeroDivisionError else Ok tt) ;;;
         r2 <- py_get "detector.roi[2]" (roi det) 2 ;;
         pb2 <- py_get "detector.preprocessing_binning[2]" (preprocessing_binning det) 2 ;;
         b2 <- py_get "detector.binning[2]" (det_binning det) 2 ;;
         (if pb2 * b2 =? 0 then Raise ZeroDivisionError else Ok tt) ;;;
         Ok (NInt fz, NFlt (inject_Z (fy - r0) / inject_Z (pb1 * b1))%Q,
             NFlt (inject_Z (fx - r2) / inject_Z (pb2 * b2))%Q)
     | _ => Raise (ValueError "fix_bragg should be a list of 3 integers")
     end) ;;
  iz0 <- int_round z0 ;; iy0 <- int_round y0 ;; ix0 <- int_round x0 ;;
  Ok (iz0, iy0, ix0).

(** Everything [center_fft] does before the resize policy: unpack the q
    values, resolve the center, read [data[iz0, iy0, ix0]] for the log. *)
Definition cfft_prelude (data : arr3 Q) (det : detector) (centering : string)
    (fix_bragg : list Z) (q_values : option (list (list Q)))
    : res ((Z * Z * Z) * (list Q * list Q * list Q)) :=
  '(qx, qz, qy) <- unpack_q q_values ;;
  c <- resolve_center data det centering fix_bragg q_values qx qz qy ;;
  getitem3 data c ;;;
  Ok (c, (qx, qz, qy)).

(** Step 2: the maximal symmetric box around the center. *)
Definition max_box (data : arr3 Q) (c : Z * Z * Z) : Z * Z * Z :=
  let '(iz0, iy0, ix0) := c in
  (Z.abs (2 * Z.min iz0 (nz data - iz0)),
   2 * Z.min iy0 (ny data - iy0),
   Z.abs (2 * Z.min ix0 (nx data - ix0))).

(** [fft_option], forced to ["skip"] when the box is empty on some axis. *)
Definition effective_option (box : Z * Z * Z) (fft_option : string) : string :=
  let '(max_nz, max_ny, max_nx) := box in
  if (max_nz =? 0) || (max_ny =? 0) || (max_nx =? 0) then "skip"%string
  else fft_option.

Definition smaller2 (a b : Z) : res (Z * Z) :=
  a' <- smaller_primes a ;; b' <- smaller_primes b ;; Ok (a', b').

Definition smaller3 (a b c : Z) : res (Z * Z * Z) :=
  a' <- smaller_primes a ;; b' <- smaller_primes b ;; c' <- smaller_primes c ;;
  Ok (a', b', c').

Definition center_fft_result : Type :=
  (arr3 Q * arr3 Q * list Z * (list Q * list Q * list Q) * list Z)%type.

(** Steps 3 to 6 of [center_fft]: the twelve branches on [fft_option],
    returning data, mask, pad_width, (qx, qz, qy) and frames_logical. *)
Definition resize (data mask : arr3 Q) (frames_logical : list Z)
    (fft_option : string) (pad_size : list Z) (q_values : option (list (list Q)))
    (qx qz qy : list Q) (iz0 iy0 ix0 max_nz max_ny max_nx : Z)
    : res center_fft_result :=
  let nbz := nz data in let nby := ny data in let nbx := nx data in
  let nframes := Z.of_nat (List.length frames_logical) in
  if (fft_option =? "crop_sym_ZYX")%string then
    '(nz1, ny1, nx1) <- smaller3 max_nz max_ny max_nx ;;
    let z0 := iz0 - nz1 / 2 in let z1 := iz0 + nz1 / 2 in
    let y0 := iy0 - ny1 / 2 in let y1 := iy0 + ny1 / 2 in
    let x0 := ix0 - nx1 / 2 in let x1 := ix0 + nx1 / 2 in
    let f1 := if 0 <? z0 then py_fill frames_logical 0 z0 0 else frames_logical in
    let f2 := if z1 <? nbz then py_fill f1 z1 nframes 0 else f1 in
    let qs := if has_q q_values
              then (py_slice qx z0 z1, py_slice qz y0 y1, py_slice qy x0 x1)
              else (qx, qz, qy) in
    Ok (slice3 data z0 z1 y0 y1 x0 x1, slice3 mask z0 z1 y0 y1 x0 x1, zeros6, qs, f2)
  else if (fft_option =? "crop_asym_ZYX")%string then
    '(nz1, ny1, nx1) <- smaller3 nbz nby nbx ;;
    let z0 := nbz / 2 - nz1 / 2 in let z1 := nbz / 2 + nz1 / 2 in
    let y0 := nby / 2 - ny1 / 2 in let y1 := nby / 2 + ny1 / 2 in
    let x0 := nbx / 2 - nx1 / 2 in let x1 := nbx / 2 + nx1 / 2 in
    let f1 := if 0 <? z0 then py_fill frames_logical 0 z0 0 else frames_logical in
    let f2 := if z1 <? nbz then py_fill f1 z1 nframes 0 else f1 in
    qs <- match q_values with
          | None => Raise (TypeError "object of type 'NoneType' has no len()")
          | Some [] => Ok (qx, qz, qy)
          | Some _ => Ok (py_slice qx z0 z1, py_slice qz y0 y1, py_slice qy x0 x1)
          end ;;
    Ok (slice3 data z0 z1 y0 y1 x0 x1, slice3 mask z0 z1 y0 y1 x0 x1, zeros6, qs, f2)
  else if (fft_option =? "pad_sym_Z_crop_sym_YX")%string
       || (fft_option =? "pad_sym_Z_crop_asym_YX")%string then
    check_len3 "pad_size should be a list of three elements" pad_size ;;;
    p0 <- py_get "pad_size[0]" pad_size 0 ;;
    check_fft "pad_size[0] does not meet FFT requirements" p0 ;;;
    '(ny1, nx1) <- smaller2 max_ny max_nx ;;
    let '(y0, y1, x0, x1) :=
      if (fft_option =? "pad_sym_Z_crop_sym_YX")%string
      then (iy0 - ny1 / 2, iy0 + ny1 / 2, ix0 - nx1 / 2, ix0 + nx1 / 2)
      else (nby / 2 - ny1 / 2, nby / 2 + ny1 / 2, nbx / 2 - nx1 / 2, nbx / 2 + nx1 / 2) in
    let pw := [sym_pad_lo p0 iz0 nbz; sym_pad_hi p0 iz0 nbz; 0; 0; 0; 0] in
    data' <- zero_pad (slice3 data 0 nbz y0 y1 x0 x1) pw false ;;
    mask' <- zero_pad (slice3 mask 0 nbz y0 y1 x0 x1) pw true ;;
    frames' <- pad_frames (nz data') (sym_pad_lo p0 iz0 nbz) nbz frames_logical ;;
    qs <- (if has_q q_values then
             dqx <- q_step qx ;; qx' <- q_extend qx dqx (sym_pad_lo p0 iz0 nbz) p0 ;;
             Ok (qx', py_slice qz y0 y1, py_slice qy x0 x1)
           else Ok (qx, qz, qy)) ;;
    Ok (data', mask', pw, qs, frames')
  else if (fft_option =? "pad_asym_Z_crop_sym_YX")%string
       || (fft_option =? "pad_asym_Z_crop_asym_YX")%string then
    '(ny1, nx1) <- (if (fft_option =? "pad_asym_Z_crop_sym_YX")%string
                    then smaller2 max_ny max_nx else smaller2 nby nbx) ;;
    let nz1 := higher_primes nbz in
    let '(y0, y1, x0, x1) :=
      if (fft_option =? "pad_asym_Z_crop_sym_YX")%string
      then (iy0 - ny1 / 2, iy0 + ny1 / 2, ix0 - nx1 / 2, ix0 + nx1 / 2)
      else (nby / 2 - ny1 / 2, nby / 2 + ny1 / 2, nbx / 2 - nx1 / 2, nbx / 2 + nx1 / 2) in
    let pw := [asym_pad_lo nz1 nbz; asym_pad_hi nz1 nbz; 0; 0; 0; 0] in
    data' <- zero_pad (slice3 data 0 nbz y0 y1 x0 x1) pw false ;;
    mask' <- zero_pad (slice3 mask 0 nbz y0 y1 x0 x1) pw true ;;
    frames' <- pad_frames (nz data') (asym_pad_lo nz1 nbz) nbz frames_logical ;;
    qs <- (if has_q q_values then
             dqx <- q_step qx ;; qx' <- q_extend qx dqx (asym_pad_lo nz1 nbz) nz1 ;;
             Ok (qx', py_slice qz y0 y1, py_slice qy x0 x1)
           else Ok (qx, qz, qy)) ;;
    Ok (data', mask', pw, qs, frames')
  else if (fft_option =? "pad_sym_Z")%string then
    check_len3 "pad_size should be a list of three elements" pad_size ;;;
    p0 <- py_get "pad_size[0]" pad_size 0 ;;
    check_fft "pad_size[0] does not meet FFT requirements" p0 ;;;
    let pw := [sym_pad_lo p0 iz0 nbz; sym_pad_hi p0 iz0 nbz; 0; 0; 0; 0] in
    data' <- zero_pad data pw false ;;
    mask' <- zero_pad mask pw true ;;
    frames' <- pad_frames (nz data') (sym_pad_lo p0 iz0 nbz) nbz frames_logical ;;
    qs <- (if has_q q_values then
             dqx <- q_step qx ;; qx' <- q_extend qx dqx (sym_pad_lo p0 iz0 nbz) p0 ;;
             Ok (qx', qz, qy)
           else Ok (qx, qz, qy)) ;;
    Ok (data', mask', pw, qs, frames')
  else if (fft_option =? "pad_asym_Z")%string then
    let nz1 := higher_primes nbz in
    let pw := [asym_pad_lo nz1 nbz; asym_pad_hi nz1 nbz; 0; 0; 0; 0] in
    data' <- zero_pad data pw false ;;
    mask' <- zero_pad mask pw true ;;
    frames' <- pad_frames (nz data') (asym_pad_lo nz1 nbz) nbz frames_logical ;;
    qs <- (if has_q q_values then
             dqx <- q_step qx ;; qx' <- q_extend qx dqx (asym_pad_lo nz1 nbz) nz1 ;;
             Ok (qx', qz, qy)
           else Ok (qx, qz, qy)) ;;
    Ok (data', mask', pw, qs, frames')
  else if (fft_option =? "pad_sym_ZYX")%string then
    check_len3 "pad_size should be a list of 3 integers" pad_size ;;;
    p0 <- py_get "pad_size[0]" pad_size 0 ;;
    check_fft "pad_size[0] does not meet FFT requirements" p0 ;;;
    p1 <- py_get "pad_size[1]" pad_size 1 ;;
    check_fft "pad_size[1] does not meet FFT requirements" p1 ;;;
    p2 <- py_get "pad_size[2]" pad_size 2 ;;
    check_fft "pad_size[2] does not meet FFT requirements" p2 ;;;
    let pw := map (Z.max 0)
      [sym_pad_lo p0 iz0 nbz; sym_pad_hi p0 iz0 nbz;
       sym_pad_lo p1 iy0 nby; sym_pad_hi p1 iy0 nby;
       sym_pad_lo p2 ix0 nbx; sym_pad_hi p2 ix0 nbx] in
    data' <- zero_pad data pw false ;;
    mask' <- zero_pad mask pw true ;;
    frames' <- pad_frames (nz data') (nth 0 pw 0) nbz frames_logical ;;
    qs <- (if has_q q_values then
             dqx <- q_step qx ;; dqy <- q_step qy ;; dqz <- q_step qz ;;
             qx' <- q_extend qx dqx (nth 0 pw 0) p0 ;;
             qy' <- q_extend qy dqy (nth 2 pw 0) p2 ;;
             qz' <- q_extend qz dqz (nth 1 pw 0) p1 ;;
             Ok (qx', qz', qy')
           else Ok (qx, qz, qy)) ;;
    Ok (data', mask', pw, qs, frames')
  else if (fft_option =? "pad_asym_ZYX")%string then
    let nz1 := higher_primes nbz in
    let ny1 := higher_primes nby in
    let nx1 := higher_primes nbx in
    p1 <- py_get "pad_size[1]" pad_size 1 ;;
    let pw := [asym_pad_lo nz1 nbz; asym_pad_hi nz1 nbz;
               py_int (inject_Z (ny1 - nby + (p1 - nby) mod 2) / 2)%Q;
               asym_pad_hi ny1 nby; asym_pad_lo nx1 nbx; asym_pad_hi nx1 nbx] in
    data' <- zero_pad data pw false ;;
    mask' <- zero_pad mask pw true ;;
    frames' <- pad_frames (nz data') (nth 0 pw 0) nbz frames_logical ;;
    qs <- (if has_q q_values then
             dqx <- q_step qx ;; dqy <- q_step qy ;; dqz <- q_step qz ;;
             qx' <- q_extend qx dqx (nth 0 pw 0) nz1 ;;
             qy' <- q_extend qy dqy (nth 2 pw 0) nx1 ;;
             qz' <- q_extend qz dqz (nth 1 pw 0) ny1 ;;
             Ok (qx', qz', qy')
           else Ok (qx, qz, qy)) ;;
    Ok (data', mask', pw, qs, frames')
  else if (fft_option =? "skip")%string then
    Ok (data, mask, zeros6, (qx, qz, qy), frames_logical)
  else Raise (ValueError "Incorrect value for 'fft_option'").

(** Modelled from the spec: [valid.valid_ndarray(arrays=(data, mask),
    ndim=3)] (bcdi.utils.validation, not under src/). The arrays are
    three-dimensional by their type; a mask whose shape differs from the
    volume's is the spec's DataShapeError, a [ValueError]. *)
Definition valid_ndarray (data mask : arr3 Q) : res unit :=
  if (nz mask =? nz data) && (ny mask =? ny data) && (nx mask =? nx data) then Ok tt
  else Raise (ValueError "all arrays should have the same shape").

(** [center_fft(data, mask, detector, frames_logical, centering, fft_option,
    fix_bragg=..., pad_size=..., q_values=...)]; an absent [fix_bragg] or
    [pad_size] is [[]], an absent [q_values] is [Some []]. *)
Definition center_fft (data mask : arr3 Q) (det : detector) (frames_logical : list Z)
    (centering fft_option : string) (fix_bragg pad_size : list Z)
    (q_values : option (list (list Q)))
    : res (arr3 Q * arr3 Q * list Z * option (list (list Q)) * list Z) :=
  valid_ndarray data mask ;;;
  '(c, (qx, qz, qy)) <- cfft_prelude data det centering fix_bragg q_values ;;
  let '(iz0, iy0, ix0) := c in
  let box := max_box data c in
  let '(max_nz, max_ny, max_nx) := box in
  '(data', mask', pad_width, (qx', qz', qy'), frames') <-
    resize data mask frames_logical (effective_option box fft_option) pad_size
           q_values qx qz qy iz0 iy0 ix0 max_nz max_ny max_nx ;;
  Ok (data', mask', pad_width, repack_q q_values qx' qz' qy', frames').

(* ------------------------------------------------------------------ *)
(** ** Regridder post-pass (grid_bcdi_labframe, grid_bcdi_xrayutil)

    The NaN clean-up of both regridders is a sequence of numpy
    boolean-mask assignments, each elementwise, so the model works on the
    flattened arrays. A float is a finite number or NaN. *)

Inductive pyfloat : Type :=
  | Fin (q : Q)
  | NaN.

Definition isnan (v : pyfloat) : bool := match v with NaN => true | Fin _ => false end.

(** [np.nonzero]: NaN counts as nonzero. *)
Definition nonzero (v : pyfloat) : bool :=
  match v with NaN => true | Fin q => negb (Qeq_bool q 0) end.

(** [a[cond(b)] = v] with [cond] evaluated on [b] before the assignment. *)
Definition mask_assign {A B} (cond : B -> bool) (b : list B) (a : list A) (v : A) : list A :=
  map (fun '(x, c) => if cond c then v else x) (combine a b).

(** [.astype(int)] of a finite float: truncation (NaN never reaches it). *)
Definition astype_int (v : pyfloat) : Z :=
  match v with Fin q => py_int q | NaN => 0 end.

(** The post-pass of [grid_bcdi_labframe] after [setup.ortho_reciprocal]. *)
Definition labframe_postpass (interp_data interp_mask : list pyfloat)
    : list pyfloat * list Z :=
  let interp_mask := mask_assign isnan interp_data interp_mask (Fin 1) in
  let interp_data := mask_assign isnan interp_data interp_data (Fin 0) in
  let interp_mask := mask_assign isnan interp_mask interp_mask (Fin 1) in
  let interp_mask := mask_assign nonzero interp_mask interp_mask (Fin 1) in
  let interp_mask := map astype_int interp_mask in
  let interp_data := mask_assign (fun m => negb (m =? 0)) interp_mask interp_data (Fin 0) in
  (interp_data, interp_mask).

(** The post-pass of [grid_bcdi_xrayutil] after the xrayutilities gridder
    (no [interp_mask[np.nonzero(interp_mask)] = 1] step). *)
Definition xrayutil_postpass (interp_data interp_mask : list pyfloat)
    : list pyfloat * list Z :=
  let interp_mask := mask_assign isnan interp_data interp_mask (Fin 1) in
  let interp_data := mask_assign isnan interp_data interp_data (Fin 0) in
  let interp_mask := mask_assign isnan interp_mask interp_mask (Fin 1) in
  let interp_mask := map astype_int interp_mask in
  let interp_data := mask_assign (fun m => negb (m =? 0)) interp_mask interp_data (Fin 0) in
  (interp_data, interp_mask).

(** Modelled from the spec: the interpolation that feeds the post-pass,
    [setup.ortho_reciprocal] for [grid_bcdi_labframe] and the xrayutilities
    [FuzzyGridder3D] for [grid_bcdi_xrayutil] (neither under src/). An
    output voxel is either interpolated from contributing samples
    ([Some (d, m)]) or has none ([None]); the spec flags the latter invalid
    in the mask, so it arrives with mask 1, and leaves its data value open
    ([empty_data]). *)
Definition interp_voxels (empty_data : pyfloat)
    (voxels : list (option (pyfloat * pyfloat))) : list pyfloat * list pyfloat :=
  (map (fun o => match o with Some (d, _) => d | None => empty_data end) voxels,
   map (fun o => match o with Some (_, m) => m | None => Fin 1 end) voxels).

(* ------------------------------------------------------------------ *)
(** ** Phase ramp (process_scan.py) *)

(** Modelled from the spec: [PhaseManipulator.add_ramp(sign)]
    (bcdi.postprocessing.analysis, not under src/) adds [sign] times the
    linear ramp of the fitted coefficients [ramp = (rz, ry, rx)] to the
    phase: [phase + sign * (rz * z + ry * y + rx * x)]. *)
Definition add_ramp (ramp : Q * Q * Q) (sign : Z) (phase : arr3 Q) : arr3 Q :=
  let '(rz, ry, rx) := ramp in
  mk_arr3 (nz phase) (ny phase) (nx phase) (fun z y x =>
    (cell phase z y x + inject_Z sign *
       (rz * inject_Z z + ry * inject_Z y + rx * inject_Z x))%Q).

(** ** Refraction correction (process_scan.py)

    The bulk support and the optical path come from
    [pu.find_bulk] and [pu.get_opticalpath] (not under src/); the step takes
    the optical path as computed. [pi] stands for [np.pi]. *)
Section Refraction.
Variable pi : Q.

Definition refraction_step (correct_refraction : bool) (wavelength : option Q)
    (dispersion : Q) (optical_path phase : list Q) : res (list Q) :=
  if correct_refraction then
    match wavelength with
    | None => Raise (ValueError "X-ray energy undefined")
    | Some w =>
        let factor := (2 * pi / (1000000000 * w) * dispersion)%Q in
        Ok (map (fun '(p, o) => p + factor * o)%Q (combine phase optical_path))
    end
  else Ok phase.

(** The refraction step followed by the rest of the scan's processing
    [rest] (ramp and offset removal, strain, saving). *)
Definition process_scan_tail {B} (rest : list Q -> res B) (correct_refraction : bool)
    (wavelength : option Q) (dispersion : Q) (optical_path phase : list Q) : res B :=
  phase <- refraction_step correct_refraction wavelength dispersion optical_path phase ;;
  rest phase.
End Refraction.

(* ------------------------------------------------------------------ *)
(** ** Test volumes *)

(** A [n x n x n] volume of ones with a single voxel of 5 at [c]. *)
Definition peak_volume (n : Z) (c : Z * Z * Z) : arr3 Q :=
  let '(cz, cy, cx) := c in
  mk_arr3 n n n (fun z y x =>
    if (z =? cz) && (y =? cy) && (x =? cx) then 5%Q else 1%Q).

Definition detector_full : detector := mk_detector [0; 5; 0; 5] [1; 1; 1] [1; 1; 1].

(** A q axis [0, 1, ..., n - 1]. *)
Definition q_axis (n : Z) : list Q := map inject_Z (zrange n).

Definition q_cube (n : Z) : option (list (list Q)) := Some [q_axis n; q_axis n; q_axis n].

(* ------------------------------------------------------------------ *)
(** * Properties *)

Create HintDb pyres.

Lemma bind_ok {A B} (m : res A) (k : A -> res B) (r : B) :
  bind m k = Ok r -> exists a, m = Ok a /\ k a = Ok r.
Proof. destruct m as [a|e]; simpl; [eauto | discriminate]. Qed.

Ltac inv_bind H :=
  let a := fresh "a" in let Ha := fresh "Ha" in let Hk := fresh "Hk" in
  apply bind_ok in H; destruct H as [a [Ha Hk]].

(** ** PeakFinder *)

Example peakfinder_find_peak_example :
  PeakFinder.find_peak (peak_volume 3 (1, 1, 1)) (0, 3, 0, 3) (1, 1, 1)
  = Ok [("max", (1, 1, 1)); ("com", (1, 1, 1)); ("max_com", (1, 1, 1))]%string.
Proof. vm_compute. reflexivity. Qed.

(** C3: the full-detector frame is [(p0 * b0, p1 * b1 + y0, p2 * b2 + x0)]
    (unbin, then add the ROI origin with sign +1 on the detector axes
    only); the ROI frame is [(p0 // b0, (p1 - y0) // b1, (p2 - x0) // b2)]
    (ROI origin with sign -1, then floor division by the binning); for
    positive binning factors the second undoes the first. *)
Theorem peakfinder_frame_conversion :
  forall (y0 y1 x0 x1 b0 b1 b2 p0 p1 p2 : Z),
    PeakFinder.get_indices_full_detector (y0, y1, x0, x1) (b0, b1, b2) (p0, p1, p2)
      = Ok (p0 * b0, p1 * b1 + y0, p2 * b2 + x0) /\
    (b0 <> 0 -> b1 <> 0 -> b2 <> 0 ->
     PeakFinder.get_indices_cropped_binned_detector (y0, y1, x0, x1) (b0, b1, b2)
       (p0, p1, p2) = Ok (p0 / b0, (p1 - y0) / b1, (p2 - x0) / b2)) /\
    (0 < b0 -> 0 < b1 -> 0 < b2 ->
     PeakFinder.get_indices_cropped_binned_detector (y0, y1, x0, x1) (b0, b1, b2)
       (p0 * b0, p1 * b1 + y0, p2 * b2 + x0) = Ok (p0, p1, p2)).
Proof.
  intros y0 y1 x0 x1 b0 b1 b2 p0 p1 p2.
  unfold PeakFinder.get_indices_full_detector, PeakFinder.get_indices_cropped_binned_detector,
    PeakFinder._offset, PeakFinder._unbin, PeakFinder._bin, py_floordiv;
    cbn -[Z.mul Z.add Z.sub Z.div Z.eqb].
  split; [|split].
  - rewrite !Z.mul_1_l; reflexivity.
  - intros H0 H1 H2.
    rewrite (proj2 (Z.eqb_neq b0 0) H0), (proj2 (Z.eqb_neq b1 0) H1),
      (proj2 (Z.eqb_neq b2 0) H2); cbn -[Z.mul Z.add Z.sub Z.div].
    replace (p1 + -1 * y0) with (p1 - y0) by ring.
    replace (p2 + -1 * x0) with (p2 - x0) by ring.
    reflexivity.
  - intros H0 H1 H2.
    rewrite (proj2 (Z.eqb_neq b0 0)), (proj2 (Z.eqb_neq b1 0)),
      (proj2 (Z.eqb_neq b2 0)) by lia; cbn -[Z.mul Z.add Z.sub Z.div].
    replace (p1 * b1 + y0 + -1 * y0) with (p1 * b1) by ring.
    replace (p2 * b2 + x0 + -1 * x0) with (p2 * b2) by ring.
    rewrite !Z.div_mul by lia. reflexivity.
Qed.

Lemma peakfinder_frame_conversion_witness :
  PeakFinder.get_indices_cropped_binned_detector (10, 20, 30, 40) (1, 2, 3) (4, 24, 40)
    = Ok (4, 7, 3) /\
  PeakFinder.get_indices_cropped_binned_detector (10, 20, 30, 40) (1, 2, 3)
    (4 * 1, 7 * 2 + 10, 3 * 3 + 30) = Ok (4, 7, 3).
Proof.
  split.
  - destruct (peakfinder_frame_conversion 10 20 30 40 1 2 3 4 24 40) as [_ [H _]].
    rewrite H by lia. reflexivity.
  - destruct (peakfinder_frame_conversion 10 20 30 40 1 2 3 4 7 3) as [_ [_ H]].
    apply H; lia.
Defined.

(** C9: with [peak_method = "skip"] (or ["user"]) the constructor itself
    raises [KeyError]: [__init__] evaluates [self._roi_center], which reads
    [self.peaks[self.peak_method]], and [find_peak] only fills the keys
    ["max"], ["com"] and ["max_com"]. *)
Theorem peakfinder_init_skip_raises :
  PeakFinder.init (peak_volume 3 (1, 1, 1)) None None "skip" = Raise (KeyError "skip") /\
  PeakFinder.init (peak_volume 3 (1, 1, 1)) None None "user" = Raise (KeyError "user") /\
  is_ok (PeakFinder.init (peak_volume 3 (1, 1, 1)) None None "max") = true.
Proof. vm_compute. repeat split. Qed.

(** ** Phase ramp *)

(** C7: re-adding and then removing the ramp with the same fitted
    coefficients gives back the phase, voxel by voxel and with the same
    shape. *)
Theorem add_ramp_round_trip :
  forall (ramp : Q * Q * Q) (phase : arr3 Q),
    let back := add_ramp ramp (-1) (add_ramp ramp 1 phase) in
    nz back = nz phase /\ ny back = ny phase /\ nx back = nx phase /\
    forall z y x, (cell back z y x == cell phase z y x)%Q.
Proof.
  intros [[rz ry] rx] phase; simpl.
  repeat split. intros z y x. ring.
Qed.

(** ** Refraction correction *)

(** C8, as the code does it: with [correct_refraction] requested and no
    wavelength, the step raises [ValueError("X-ray energy undefined")], so
    the scan's processing stops there whatever follows; with a wavelength
    the rest of the scan runs on the corrected phase. *)
Theorem refraction_undefined_wavelength_raises :
  forall (pi : Q) (B : Type) (rest : list Q -> res B) (dispersion : Q)
         (optical_path phase : list Q),
    process_scan_tail pi rest true None dispersion optical_path phase
      = Raise (ValueError "X-ray energy undefined") /\
    forall w, process_scan_tail pi rest true (Some w) dispersion optical_path phase
      = rest (map (fun '(p, o) => p + 2 * pi / (1000000000 * w) * dispersion * o)%Q
                  (combine phase optical_path)).
Proof. intros. split; [reflexivity | intros; reflexivity]. Qed.

(** C8 fails: the rest of the scan ([rest], here the identity) never runs. *)
Lemma refraction_undefined_wavelength_counterexample :
  process_scan_tail (355 # 113) (fun p => Ok p) true None 1 [1%Q] [0%Q]
    = Raise (ValueError "X-ray energy undefined").
Proof. reflexivity. Qed.

(** ** Regridder post-pass *)

(** What the post-pass guarantees for one voxel, with input data [a] and
    mask [b] and output data [a'] and mask [b']. *)
Definition voxel_post (a b a' : pyfloat) (b' : Z) : Prop :=
  a' <> NaN /\
  (isnan a || isnan b = true -> b' = 1 /\ a' = Fin 0) /\
  (b' <> 0 -> a' = Fin 0).

Lemma labframe_postpass_cons a b d m :
  labframe_postpass (a :: d) (b :: m) =
  (fst (labframe_postpass [a] [b]) ++ fst (labframe_postpass d m),
   snd (labframe_postpass [a] [b]) ++ snd (labframe_postpass d m)).
Proof. reflexivity. Qed.

Lemma xrayutil_postpass_cons a b d m :
  xrayutil_postpass (a :: d) (b :: m) =
  (fst (xrayutil_postpass [a] [b]) ++ fst (xrayutil_postpass d m),
   snd (xrayutil_postpass [a] [b]) ++ snd (xrayutil_postpass d m)).
Proof. reflexivity. Qed.

Ltac solve_voxel :=
  eexists _, _; split; [reflexivity|];
  unfold voxel_post; simpl;
  repeat match goal with
         | |- context [if ?c then _ else _] => destruct c eqn:?
         end; simpl in *;
  repeat match goal with
         | H : negb _ = false |- _ => apply negb_false_iff in H
         | H : negb _ = true |- _ => apply negb_true_iff in H
         end;
  rewrite ?Z.eqb_eq, ?Z.eqb_neq in *;
  repeat split; intros; try discriminate; try congruence; try lia.

Lemma labframe_voxel a b :
  exists a' b', labframe_postpass [a] [b] = ([a'], [b']) /\ voxel_post a b a' b'.
Proof. destruct a as [qa|], b as [qb|]; solve_voxel. Qed.

Lemma xrayutil_voxel a b :
  exists a' b', xrayutil_postpass [a] [b] = ([a'], [b']) /\ voxel_post a b a' b'.
Proof. destruct a as [qa|], b as [qb|]; solve_voxel. Qed.

Section Postpass.
Variable post : list pyfloat -> list pyfloat -> list pyfloat * list Z.
Hypothesis post_nil : post [] [] = ([], []).
Hypothesis post_cons : forall a b d m,
  post (a :: d) (b :: m) =
  (fst (post [a] [b]) ++ fst (post d m), snd (post [a] [b]) ++ snd (post d m)).
Hypothesis post_voxel : forall a b,
  exists a' b', post [a] [b] = ([a'], [b']) /\ voxel_post a b a' b'.

Lemma postpass_pointwise : forall d m,
  List.length d = List.length m ->
  List.length (fst (post d m)) = List.length d /\
  List.length (snd (post d m)) = List.length d /\
  forall i a b, nth_error d i = Some a -> nth_error m i = Some b ->
    exists a' b', nth_error (fst (post d m)) i = Some a' /\
                  nth_error (snd (post d m)) i = Some b' /\
                  post [a] [b] = ([a'], [b']) /\ voxel_post a b a' b'.
Proof.
  induction d as [|a d IH]; intros [|b m] Hlen; simpl in Hlen; try discriminate.
  - rewrite post_nil. simpl. repeat split. intros [|i]; discriminate.
  - injection Hlen as Hlen.
    destruct (IH m Hlen) as [H1 [H2 H3]].
    destruct (post_voxel a b) as [a' [b' [Hv Hp]]].
    rewrite post_cons, Hv. simpl. rewrite H1, H2.
    split; [reflexivity|]. split; [reflexivity|].
    intros [|i] x y Hx Hy; simpl in *.
    + injection Hx as <-. injection Hy as <-.
      exists a', b'. split; [reflexivity|]. split; [reflexivity|]. split; [exact Hv|exact Hp].
    + exact (H3 i x y Hx Hy).
Qed.

Lemma postpass_no_nan : forall d m,
  List.length d = List.length m -> ~ In NaN (fst (post d m)).
Proof.
  intros d m Hlen Hin.
  destruct (postpass_pointwise d m Hlen) as [H1 [_ H3]].
  apply In_nth_error in Hin as [i Hi].
  assert (i < List.length d)%nat as Hlt.
  { rewrite <- H1. apply nth_error_Some. congruence. }
  destruct (nth_error d i) as [a|] eqn:Ha; [|apply nth_error_None in Ha; lia].
  destruct (nth_error m i) as [b|] eqn:Hb; [|apply nth_error_None in Hb; lia].
  destruct (H3 i a b Ha Hb) as [a' [b' [Ha' [_ [_ [Hn _]]]]]].
  congruence.
Qed.
End Postpass.

(** C1: both post-passes ([grid_bcdi_labframe], [grid_bcdi_xrayutil])
    keep the shape, leave no NaN in the data, flag (mask 1) and zero every
    voxel whose interpolated data or mask is NaN, and zero the data wherever
    the final mask is nonzero (the NaN folding precedes the final zeroing).
    A voxel with no contributing sample, flagged by the interpolation,
    stays flagged and ends with data 0 and mask 1, whatever its
    interpolated data value. *)
Theorem regrid_postpass_nan_folding :
  forall post, post = labframe_postpass \/ post = xrayutil_postpass ->
  (forall d m, List.length d = List.length m ->
     List.length (fst (post d m)) = List.length d /\
     List.length (snd (post d m)) = List.length d /\
     ~ In NaN (fst (post d m)) /\
     forall i a b, nth_error d i = Some a -> nth_error m i = Some b ->
       exists a' b', nth_error (fst (post d m)) i = Some a' /\
         nth_error (snd (post d m)) i = Some b' /\ voxel_post a b a' b') /\
  (forall empty_data voxels i, nth_error voxels i = Some None ->
     let dm := interp_voxels empty_data voxels in
     nth_error (fst (post (fst dm) (snd dm))) i = Some (Fin 0) /\
     nth_error (snd (post (fst dm) (snd dm))) i = Some 1).
Proof.
  intros post Hpost.
  assert (Hn : post [] [] = ([], [])) by (destruct Hpost; subst; reflexivity).
  assert (Hc : forall a b d m, post (a :: d) (b :: m) =
    (fst (post [a] [b]) ++ fst (post d m), snd (post [a] [b]) ++ snd (post d m))).
  { destruct Hpost; subst; [apply labframe_postpass_cons | apply xrayutil_postpass_cons]. }
  assert (Hv : forall a b, exists a' b', post [a] [b] = ([a'], [b']) /\ voxel_post a b a' b').
  { destruct Hpost; subst; [apply labframe_voxel | apply xrayutil_voxel]. }
  split.
  - intros d m Hlen.
    destruct (postpass_pointwise post Hn Hc Hv d m Hlen) as [H1 [H2 H3]].
    split; [exact H1|]. split; [exact H2|].
    split; [exact (postpass_no_nan post Hn Hc Hv d m Hlen)|].
    intros i a b Ha Hb. destruct (H3 i a b Ha Hb) as [a' [b' [Ha' [Hb' [_ Hp]]]]].
    exists a', b'. split; [exact Ha'|]. split; [exact Hb'|exact Hp].
  - intros e voxels i Hi. simpl.
    assert (Hlen : List.length (fst (interp_voxels e voxels))
                   = List.length (snd (interp_voxels e voxels)))
      by (simpl; rewrite !length_map; reflexivity).
    destruct (postpass_pointwise post Hn Hc Hv _ _ Hlen) as [_ [_ H3]].
    edestruct H3 as [a' [b' [Ha' [Hb' [Hp _]]]]];
      [simpl; rewrite nth_error_map, Hi; reflexivity
      |simpl; rewrite nth_error_map, Hi; reflexivity|].
    simpl in Ha', Hb'. rewrite Ha', Hb'.
    destruct Hpost; subst; destruct e as [q|];
      vm_compute in Hp; injection Hp as <- <-; split; reflexivity.
Qed.

Lemma regrid_postpass_nan_folding_witness :
  ~ In NaN (fst (xrayutil_postpass [NaN; Fin 2] [Fin 0; NaN])) /\
  nth_error (snd (labframe_postpass (fst (interp_voxels NaN [Some (Fin 3, Fin 0); None]))
                                    (snd (interp_voxels NaN [Some (Fin 3, Fin 0); None])))) 1
    = Some 1.
Proof.
  split.
  - destruct (proj1 (regrid_postpass_nan_folding xrayutil_postpass (or_intror eq_refl))
                [NaN; Fin 2] [Fin 0; NaN] eq_refl) as [_ [_ [H _]]].
    exact H.
  - exact (proj2 (proj2 (regrid_postpass_nan_folding labframe_postpass (or_introl eq_refl))
                    NaN [Some (Fin 3, Fin 0); None] 1%nat eq_refl)).
Defined.

(* ------------------------------------------------------------------ *)
(** ** center_fft: the policy dispatch *)

Lemma valid_ndarray_same data mask :
  nz mask = nz data -> ny mask = ny data -> nx mask = nx data ->
  valid_ndarray data mask = Ok tt.
Proof.
  intros Hz Hy Hx. unfold valid_ndarray. rewrite Hz, Hy, Hx, !Z.eqb_refl. reflexivity.
Qed.

Lemma valid_ndarray_cases data mask :
  valid_ndarray data mask = Ok tt \/
  valid_ndarray data mask = Raise (ValueError "all arrays should have the same shape").
Proof. unfold valid_ndarray. destruct (_ && _); [left|right]; reflexivity. Qed.

Lemma center_fft_valid data mask det frames centering opt fb pad q r :
  center_fft data mask det frames centering opt fb pad q = Ok r ->
  valid_ndarray data mask = Ok tt.
Proof.
  intros H. destruct (valid_ndarray_cases data mask) as [Hv|Hv]; [exact Hv|].
  unfold center_fft in H. rewrite Hv in H. discriminate.
Qed.

Lemma center_fft_reduce data mask det frames centering opt fb pad q iz iy ix qx qz qy :
  valid_ndarray data mask = Ok tt ->
  cfft_prelude data det centering fb q = Ok ((iz, iy, ix), (qx, qz, qy)) ->
  center_fft data mask det frames centering opt fb pad q =
  ('(d', m', pw, (qx', qz', qy'), f') <-
     resize data mask frames (effective_option (max_box data (iz, iy, ix)) opt) pad q
            qx qz qy iz iy ix
            (Z.abs (2 * Z.min iz (nz data - iz))) (2 * Z.min iy (ny data - iy))
            (Z.abs (2 * Z.min ix (nx data - ix))) ;;
   Ok (d', m', pw, repack_q q qx' qz' qy', f')).
Proof. intros Hv H. unfold center_fft. rewrite Hv. cbn [bind]. rewrite H. reflexivity. Qed.

Lemma effective_option_degenerate bz by_ bx opt :
  bz = 0 \/ by_ = 0 \/ bx = 0 -> effective_option (bz, by_, bx) opt = "skip"%string.
Proof.
  intros H. unfold effective_option.
  destruct H as [-> | [-> | ->]]; rewrite ?Z.eqb_refl, ?orb_true_r; reflexivity.
Qed.

Lemma effective_option_nondegenerate bz by_ bx opt :
  bz <> 0 -> by_ <> 0 -> bx <> 0 -> effective_option (bz, by_, bx) opt = opt.
Proof.
  intros Hz Hy Hx. unfold effective_option.
  apply Z.eqb_neq in Hz, Hy, Hx. rewrite Hz, Hy, Hx. reflexivity.
Qed.

Lemma effective_option_skip box : effective_option box "skip" = "skip"%string.
Proof. destruct box as [[bz by_] bx]. unfold effective_option. destruct (_ || _); reflexivity. Qed.

Lemma resize_skip data mask frames pad q qx qz qy iz iy ix bz by_ bx :
  resize data mask frames "skip" pad q qx qz qy iz iy ix bz by_ bx =
  Ok (data, mask, zeros6, (qx, qz, qy), frames).
Proof. reflexivity. Qed.

Lemma prelude_unpack data det centering fb q c qs :
  cfft_prelude data det centering fb q = Ok (c, qs) -> unpack_q q = Ok qs.
Proof.
  unfold cfft_prelude. destruct (unpack_q q) as [[[qx qz] qy]|e]; simpl; [|discriminate].
  destruct (resolve_center _ _ _ _ _ _ _ _); simpl; [|discriminate].
  destruct (getitem3 _ _); simpl; [|discriminate].
  intros H. injection H as _ <-. reflexivity.
Qed.

Lemma py_get_nth {A} w (l : list A) i x :
  0 <= i -> nth_error l (Z.to_nat i) = Some x -> py_get w l i = Ok x.
Proof.
  intros Hi Hn. unfold py_get, py_index.
  assert (Hlt : (Z.to_nat i < List.length l)%nat)
    by (apply nth_error_Some; congruence).
  replace ((0 <=? i) && (i <? Z.of_nat (List.length l))) with true
    by (symmetry; apply andb_true_iff; split; [apply Z.leb_le | apply Z.ltb_lt]; lia).
  simpl. rewrite Hn. reflexivity.
Qed.

Lemma py_get_short {A} w (l : list A) i :
  0 <= i -> (List.length l <= Z.to_nat i)%nat -> py_get w l i = Raise (IndexError w).
Proof.
  intros Hi Hl. unfold py_get, py_index.
  replace ((0 <=? i) && (i <? Z.of_nat (List.length l))) with false
    by (symmetry; apply andb_false_iff; right; apply Z.ltb_ge; lia).
  replace ((- Z.of_nat (List.length l) <=? i) && (i <? 0)) with false
    by (symmetry; apply andb_false_iff; right; apply Z.ltb_ge; lia).
  reflexivity.
Qed.

Lemma repack_unpack q qx qz qy :
  unpack_q q = Ok (qx, qz, qy) -> repack_q q qx qz qy = q.
Proof.
  destruct q as [[|a [|b [|c rest]]]|]; intros H.
  - discriminate.
  - unfold unpack_q in H. rewrite (py_get_nth _ _ 0 a) in H by first [reflexivity | lia].
    cbn [bind] in H. rewrite py_get_short in H by (simpl; lia). discriminate.
  - unfold unpack_q in H. rewrite (py_get_nth _ _ 0 a), (py_get_nth _ _ 1 b) in H by first [reflexivity | lia].
    cbn [bind] in H. rewrite py_get_short in H by (simpl; lia). discriminate.
  - unfold unpack_q in H.
    rewrite (py_get_nth _ _ 0 a), (py_get_nth _ _ 1 b), (py_get_nth _ _ 2 c) in H
      by first [reflexivity | lia].
    cbn [bind] in H. injection H as <- <- <-. reflexivity.
  - reflexivity.
Qed.

(** C2: under [fft_option = "skip"] [center_fft] is the identity: data,
    mask, q values and frames_logical come back unchanged and the pad
    width is [[0, 0, 0, 0, 0, 0]]. *)
Theorem center_fft_skip_identity data mask det frames centering fb pad q d' m' pw q' f' :
  center_fft data mask det frames centering "skip" fb pad q = Ok (d', m', pw, q', f') ->
  d' = data /\ m' = mask /\ pw = zeros6 /\ q' = q /\ f' = frames.
Proof.
  intros H. pose proof (center_fft_valid _ _ _ _ _ _ _ _ _ _ H) as Hv.
  destruct (cfft_prelude data det centering fb q) as [[[[iz iy] ix] [[qx qz] qy]]|e] eqn:Hp.
  - rewrite (center_fft_reduce _ _ _ _ _ _ _ _ _ _ _ _ _ _ _ Hv Hp), effective_option_skip,
      resize_skip in H.
    cbn [bind] in H. injection H as <- <- <- <- <-.
    rewrite (repack_unpack _ _ _ _ (prelude_unpack _ _ _ _ _ _ _ Hp)).
    repeat split.
  - unfold center_fft in H. rewrite Hv in H. cbn [bind] in H. rewrite Hp in H. discriminate.
Qed.

Lemma center_fft_skip_identity_witness :
  center_fft (peak_volume 5 (2, 2, 2)) (peak_volume 5 (0, 0, 0)) detector_full [1; 1; 1; 1; 1]
             "max" "skip" [] [] (q_cube 5)
  = Ok (peak_volume 5 (2, 2, 2), peak_volume 5 (0, 0, 0), zeros6, q_cube 5, [1; 1; 1; 1; 1]) /\
  q_cube 5 = q_cube 5 /\ [1; 1; 1; 1; 1] = [1; 1; 1; 1; 1].
Proof.
  assert (H : center_fft (peak_volume 5 (2, 2, 2)) (peak_volume 5 (0, 0, 0)) detector_full
                [1; 1; 1; 1; 1] "max" "skip" [] [] (q_cube 5)
              = Ok (peak_volume 5 (2, 2, 2), peak_volume 5 (0, 0, 0), zeros6, q_cube 5,
                    [1; 1; 1; 1; 1])) by (vm_compute; reflexivity).
  split; [exact H|].
  destruct (center_fft_skip_identity _ _ _ _ _ _ _ _ _ _ _ _ _ H) as [_ [_ [_ [Hq Hf]]]].
  split; [exact Hq | exact Hf].
Defined.

(** C6: for a mask of the volume's shape, when the maximal symmetric box
    around the resolved center has a zero half-width on some axis, the
    policy falls back to "skip" and [center_fft] returns its inputs
    unchanged, whatever [fft_option]. *)
Theorem center_fft_degenerate_box_skips data mask det frames centering opt fb pad q
    iz iy ix qs :
  nz mask = nz data -> ny mask = ny data -> nx mask = nx data ->
  cfft_prelude data det centering fb q = Ok ((iz, iy, ix), qs) ->
  Z.min iz (nz data - iz) = 0 \/ Z.min iy (ny data - iy) = 0 \/ Z.min ix (nx data - ix) = 0 ->
  center_fft data mask det frames centering opt fb pad q = Ok (data, mask, zeros6, q, frames).
Proof.
  intros Mz My Mx Hp Hd. destruct qs as [[qx qz] qy].
  pose proof (valid_ndarray_same _ _ Mz My Mx) as Hv.
  rewrite (center_fft_reduce _ _ _ _ _ _ _ _ _ _ _ _ _ _ _ Hv Hp). unfold max_box.
  rewrite effective_option_degenerate
    by (destruct Hd as [H|[H|H]]; rewrite H; [left|right; left|right; right]; reflexivity).
  rewrite resize_skip. cbn [bind].
  rewrite (repack_unpack _ _ _ _ (prelude_unpack _ _ _ _ _ _ _ Hp)). reflexivity.
Qed.

Lemma center_fft_degenerate_box_skips_witness :
  cfft_prelude (peak_volume 5 (0, 2, 2)) detector_full "max" [] None = Ok ((0, 2, 2), ([], [], [])) /\
  center_fft (peak_volume 5 (0, 2, 2)) (peak_volume 5 (1, 1, 1)) detector_full [1; 1; 1; 1; 1]
             "max" "crop_sym_ZYX" [] [] None
  = Ok (peak_volume 5 (0, 2, 2), peak_volume 5 (1, 1, 1), zeros6, None, [1; 1; 1; 1; 1]).
Proof.
  assert (Hp : cfft_prelude (peak_volume 5 (0, 2, 2)) detector_full "max" [] None
               = Ok ((0, 2, 2), ([], [], []))) by (vm_compute; reflexivity).
  split; [exact Hp|].
  apply (center_fft_degenerate_box_skips (peak_volume 5 (0, 2, 2)) (peak_volume 5 (1, 1, 1))
           _ _ _ _ _ _ _ 0 2 2 _ eq_refl eq_refl eq_refl Hp).
  left. vm_compute. reflexivity.
Defined.

(** C10 (amended): with [fft_option = "pad_asym_ZYX"], a mask of the
    volume's shape, a center that leaves the symmetric box non-empty and a
    [pad_size] with fewer than two entries (the default is [[]]),
    [center_fft] raises [IndexError] on [pad_size[1]] while computing the
    pad widths. *)
Theorem center_fft_pad_asym_ZYX_needs_pad_size data mask det frames centering fb pad q
    iz iy ix qs :
  nz mask = nz data -> ny mask = ny data -> nx mask = nx data ->
  cfft_prelude data det centering fb q = Ok ((iz, iy, ix), qs) ->
  Z.min iz (nz data - iz) <> 0 -> Z.min iy (ny data - iy) <> 0 ->
  Z.min ix (nx data - ix) <> 0 ->
  (List.length pad < 2)%nat ->
  center_fft data mask det frames centering "pad_asym_ZYX" fb pad q
  = Raise (IndexError "pad_size[1]").
Proof.
  intros Mz My Mx Hp Hz Hy Hx Hl. destruct qs as [[qx qz] qy].
  pose proof (valid_ndarray_same _ _ Mz My Mx) as Hv.
  rewrite (center_fft_reduce _ _ _ _ _ _ _ _ _ _ _ _ _ _ _ Hv Hp). unfold max_box.
  rewrite effective_option_nondegenerate by lia.
  unfold resize. simpl.
  rewrite py_get_short by lia. reflexivity.
Qed.

Lemma center_fft_pad_asym_ZYX_needs_pad_size_witness :
  center_fft (peak_volume 5 (2, 2, 2)) (peak_volume 5 (2, 2, 2)) detector_full [1; 1; 1; 1; 1]
             "max" "pad_asym_ZYX" [] [] None = Raise (IndexError "pad_size[1]").
Proof.
  assert (Hp : cfft_prelude (peak_volume 5 (2, 2, 2)) detector_full "max" [] None
               = Ok ((2, 2, 2), ([], [], []))) by (vm_compute; reflexivity).
  apply (center_fft_pad_asym_ZYX_needs_pad_size (peak_volume 5 (2, 2, 2))
           (peak_volume 5 (2, 2, 2)) _ _ _ _ _ _ 2 2 2 _ eq_refl eq_refl eq_refl Hp);
    simpl; lia.
Defined.

(** C10 does not hold when the center touches a border: the policy then
    falls back to "skip" and the call with the default [pad_size = []]
    succeeds. *)
Lemma center_fft_pad_asym_ZYX_counterexample :
  is_ok (center_fft (peak_volume 5 (0, 2, 2)) (peak_volume 5 (0, 2, 2)) detector_full
                    [1; 1; 1; 1; 1] "max" "pad_asym_ZYX" [] [] None) = true.
Proof. vm_compute. reflexivity. Qed.

(* ------------------------------------------------------------------ *)
(** ** FFT-compatibility of the caller's [pad_size] *)

Lemma search_up_eq f m :
  search_up f m = if fft_ok m then m else match f with O => 0 | S f' => search_up f' (m + 1) end.
Proof. destruct f; reflexivity. Qed.

Lemma search_up_spec f : forall m, search_up f m = 0 \/ fft_ok (search_up f m) = true.
Proof.
  induction f as [|f IH]; intros m; rewrite search_up_eq;
    destruct (fft_ok m) eqn:H; auto.
Qed.

Lemma fft_ok_pos m : fft_ok m = true -> 0 < m /\ Z.even m = true.
Proof.
  unfold fft_ok. intros H. apply andb_true_iff in H as [H _].
  apply andb_true_iff in H as [H1 H2]. apply Z.ltb_lt in H1. auto.
Qed.

(** [pad_size[i] == higher_primes(pad_size[i])] exactly for FFT-compatible sizes. *)
Lemma higher_primes_fixed p : p = higher_primes p <-> fft_ok p = true.
Proof.
  unfold higher_primes. split.
  - destruct (p <=? 2) eqn:Hle.
    + intros ->. reflexivity.
    + apply Z.leb_gt in Hle. intros Hp.
      destruct (search_up_spec (Z.to_nat p) p) as [H|H]; rewrite <- Hp in H; [lia|exact H].
  - intros H. destruct (fft_ok_pos p H) as [Hpos Hev].
    destruct (p <=? 2) eqn:Hle.
    + apply Z.leb_le in Hle.
      assert (p = 1 \/ p = 2) as [->| ->] by lia; [discriminate Hev|reflexivity].
    + rewrite search_up_eq, H. reflexivity.
Qed.

Lemma check_fft_bad msg p : fft_ok p = false -> check_fft msg p = Raise (ValueError msg).
Proof.
  intros H. unfold check_fft. destruct (p =? higher_primes p) eqn:E; [|reflexivity].
  apply Z.eqb_eq, higher_primes_fixed in E. congruence.
Qed.

Lemma check_fft_good msg p : fft_ok p = true -> check_fft msg p = Ok tt.
Proof.
  intros H. unfold check_fft. apply higher_primes_fixed in H. rewrite <- H, Z.eqb_refl.
  reflexivity.
Qed.

Ltac cfft_red :=
  rewrite ?(py_get_nth _ [_; _; _] 0 _ (Z.le_refl 0) eq_refl),
          ?(py_get_nth _ [_; _; _] 1 _ (Z.le_0_1) eq_refl),
          ?(py_get_nth _ [_; _; _] 2 _ (Z.le_0_2) eq_refl);
  cbn -[check_fft zero_pad smaller2 smaller3 pad_frames q_step q_extend py_get].

(** C4 (amended): for the four policies that take the caller's
    [pad_size] (pad_sym_Z_crop_sym_YX, pad_sym_Z_crop_asym_YX, pad_sym_Z,
    pad_sym_ZYX), when the box around the center is non-empty (else the
    policy falls back to "skip"), a three-entry [pad_size] whose first
    entry is not FFT-compatible (for pad_sym_ZYX: any entry) makes
    [center_fft] raise [ValueError] before any array is padded or sliced.
    An FFT-compatible size such as 70 = 2 * 5 * 7 is accepted. *)
Theorem center_fft_pad_size_not_fft_rejected data mask det frames centering opt fb q
    iz iy ix qs p0 p1 p2 :
  cfft_prelude data det centering fb q = Ok ((iz, iy, ix), qs) ->
  Z.min iz (nz data - iz) <> 0 -> Z.min iy (ny data - iy) <> 0 ->
  Z.min ix (nx data - ix) <> 0 ->
  In opt ["pad_sym_Z_crop_sym_YX"; "pad_sym_Z_crop_asym_YX"; "pad_sym_Z"; "pad_sym_ZYX"]%string ->
  fft_ok p0 = false \/
  (opt = "pad_sym_ZYX"%string /\ (fft_ok p1 = false \/ fft_ok p2 = false)) ->
  exists msg, center_fft data mask det frames centering opt fb [p0; p1; p2] q
              = Raise (ValueError msg).
Proof.
  intros Hp Hz Hy Hx Hopt Hbad. destruct qs as [[qx qz] qy].
  destruct (valid_ndarray_cases data mask) as [Hv|Hv];
    [|unfold center_fft; rewrite Hv; eexists; reflexivity].
  rewrite (center_fft_reduce _ _ _ _ _ _ _ _ _ _ _ _ _ _ _ Hv Hp). unfold max_box.
  rewrite effective_option_nondegenerate by lia.
  destruct Hbad as [H0 | [-> Hbad]].
  - simpl in Hopt.
    destruct Hopt as [<- | [<- | [<- | [<- | []]]]]; unfold resize;
      cfft_red;
      rewrite (check_fft_bad _ _ H0); eexists; reflexivity.
  - unfold resize; cfft_red.
    destruct (fft_ok p0) eqn:H0.
    + rewrite (check_fft_good _ _ H0). cfft_red.
      destruct Hbad as [H1 | H2].
      * rewrite (check_fft_bad _ _ H1). eexists; reflexivity.
      * destruct (fft_ok p1) eqn:H1.
        -- rewrite (check_fft_good _ _ H1). cfft_red.
           rewrite (check_fft_bad _ _ H2). eexists; reflexivity.
        -- rewrite (check_fft_bad _ _ H1). eexists; reflexivity.
    + rewrite (check_fft_bad _ _ H0). eexists; reflexivity.
Qed.

Lemma center_fft_pad_size_not_fft_rejected_witness :
  exists msg, center_fft (peak_volume 5 (2, 2, 2)) (peak_volume 5 (2, 2, 2)) detector_full
                [1; 1; 1; 1; 1] "max" "pad_sym_Z" [] [9; 8; 8] None = Raise (ValueError msg).
Proof.
  assert (Hp : cfft_prelude (peak_volume 5 (2, 2, 2)) detector_full "max" [] None
               = Ok ((2, 2, 2), ([], [], []))) by (vm_compute; reflexivity).
  apply (center_fft_pad_size_not_fft_rejected _ _ _ _ _ _ _ _ 2 2 2 _ 9 8 8 Hp);
    [vm_compute; intro H; discriminate H
    |vm_compute; intro H; discriminate H
    |vm_compute; intro H; discriminate H
    |simpl; right; right; left; reflexivity
    |left; vm_compute; reflexivity].
Defined.

(** C4 as stated fails twice: 70 = 2 * 5 * 7 is FFT-compatible and the
    pad_sym_Z policy accepts it; and a non-compatible size (9) is accepted
    when the center touches a border, since the policy then falls back to
    "skip". *)
Lemma center_fft_pad_size_counterexample :
  fft_ok 70 = true /\
  is_ok (center_fft (peak_volume 5 (2, 2, 2)) (peak_volume 5 (2, 2, 2)) detector_full
                    [1; 1; 1; 1; 1] "max" "pad_sym_Z" [] [70; 70; 70] None) = true /\
  fft_ok 9 = false /\
  is_ok (center_fft (peak_volume 5 (0, 2, 2)) (peak_volume 5 (0, 2, 2)) detector_full
                    [1; 1; 1; 1; 1] "max" "pad_sym_Z" [] [9; 9; 9] None) = true.
Proof. vm_compute. repeat split. Qed.

(* ------------------------------------------------------------------ *)
(** ** frames_logical through center_fft *)








Ltac split_pairs := repeat match goal with p : (_ * _)%type |- _ => destruct p end.

(** Peel the binds of [H : m1 ;; ... ;; Ok r = Ok r'] into equations. *)
Ltac peel H :=
  repeat (apply bind_ok in H;
          let a := fresh "a" in let Ha := fresh "Ha" in
          destruct H as [a [Ha H]]; split_pairs; cbn beta iota zeta in H).



Ltac resize_red H :=
  unfold resize in H;
  cbn -[smaller3 smaller2 py_fill py_slice slice3 zero_pad pad_frames q_step q_extend
        check_fft check_len3 py_get higher_primes sym_pad_lo sym_pad_hi asym_pad_lo
        asym_pad_hi has_q Z.div Z.add Z.sub Z.mul Z.ltb Z.max py_int] in H.


(* ------------------------------------------------------------------ *)
(** ** zero_pad *)

Lemma slice_bounds_exact n s e :
  0 <= s <= e -> e <= n -> py_slice_bounds n s e = (s, e - s).
Proof.
  intros Hs He. unfold py_slice_bounds, py_clip.
  replace (s <? 0) with false by (symmetry; apply Z.ltb_ge; lia).
  replace (e <? 0) with false by (symmetry; apply Z.ltb_ge; lia).
  f_equal; lia.
Qed.

Lemma py_clip_in n i : 0 <= i <= n -> py_clip n i = i.
Proof.
  intros H. unfold py_clip.
  replace (i <? 0) with false by (symmetry; apply Z.ltb_ge; lia). lia.
Qed.

Lemma zero_pad_correct a p0 p1 p2 p3 p4 p5 flag :
  0 <= nz a -> 0 <= ny a -> 0 <= nx a ->
  0 <= p0 -> 0 <= p1 -> 0 <= p2 -> 0 <= p3 -> 0 <= p4 -> 0 <= p5 ->
  exists a', zero_pad a [p0; p1; p2; p3; p4; p5] flag = Ok a' /\
    nz a' = nz a + p0 + p1 /\ ny a' = ny a + p2 + p3 /\ nx a' = nx a + p4 + p5 /\
    forall z y x, cell a' z y x =
      if in_window p0 (nz a) z && in_window p2 (ny a) y && in_window p4 (nx a) x
      then cell a (z - p0) (y - p2) (x - p4)
      else if flag then 1%Q else 0%Q.
Proof.
  intros Hz Hy Hx H0 H1 H2 H3 H4 H5. unfold zero_pad. simpl.
  replace ((nz a + p0 + p1 <? 0) || (ny a + p2 + p3 <? 0) || (nx a + p4 + p5 <? 0))
    with false by (symmetry; rewrite !orb_false_iff; rewrite !Z.ltb_ge; lia).
  rewrite (py_clip_in (nz a + p0 + p1) p0), (py_clip_in (nz a + p0 + p1) (p0 + nz a)),
    (py_clip_in (ny a + p2 + p3) p2), (py_clip_in (ny a + p2 + p3) (p2 + ny a)),
    (py_clip_in (nx a + p4 + p5) p4), (py_clip_in (nx a + p4 + p5) (p4 + nx a)) by lia.
  replace (Z.max 0 (p0 + nz a - p0)) with (nz a) by lia.
  replace (Z.max 0 (p2 + ny a - p2)) with (ny a) by lia.
  replace (Z.max 0 (p4 + nx a - p4)) with (nx a) by lia.
  rewrite !Z.eqb_refl. simpl.
  eexists. split; [reflexivity|]. simpl. split; [reflexivity|]. split; [reflexivity|].
  split; [reflexivity|].
  intros z y x. unfold in_window.
  destruct (p0 <=? z) eqn:Ez, (z <? p0 + nz a) eqn:Ez', (p2 <=? y) eqn:Ey,
    (y <? p2 + ny a) eqn:Ey', (p4 <=? x) eqn:Ex, (x <? p4 + nx a) eqn:Ex'; simpl;
    try reflexivity.
  rewrite Z.leb_le in Ez, Ey, Ex. rewrite Z.ltb_lt in Ez', Ey', Ex'.
  f_equal;
    match goal with |- (if ?n =? 1 then 0 else _) = _ =>
      destruct (Z.eqb_spec n 1); lia end.
Qed.

(** [zero_pad] with non-negative widths: the output has the padded shape,
    holds the input shifted by [(pw0, pw2, pw4)], and is 0 (1 for a mask)
    everywhere else. *)
Theorem zero_pad_shift_and_fill a p0 p1 p2 p3 p4 p5 flag :
  0 <= nz a -> 0 <= ny a -> 0 <= nx a ->
  0 <= p0 -> 0 <= p1 -> 0 <= p2 -> 0 <= p3 -> 0 <= p4 -> 0 <= p5 ->
  exists a', zero_pad a [p0; p1; p2; p3; p4; p5] flag = Ok a' /\
    nz a' = nz a + p0 + p1 /\ ny a' = ny a + p2 + p3 /\ nx a' = nx a + p4 + p5 /\
    (forall z y x, 0 <= z < nz a -> 0 <= y < ny a -> 0 <= x < nx a ->
       cell a' (z + p0) (y + p2) (x + p4) = cell a z y x) /\
    (forall z y x, ~ (p0 <= z < p0 + nz a /\ p2 <= y < p2 + ny a /\ p4 <= x < p4 + nx a) ->
       cell a' z y x = if flag then 1%Q else 0%Q).
Proof.
  intros Hz Hy Hx H0 H1 H2 H3 H4 H5.
  destruct (zero_pad_correct a p0 p1 p2 p3 p4 p5 flag Hz Hy Hx H0 H1 H2 H3 H4 H5)
    as [a' [Ha [Hnz [Hny [Hnx Hc]]]]].
  exists a'. split; [exact Ha|]. split; [exact Hnz|]. split; [exact Hny|].
  split; [exact Hnx|]. split.
  - intros z y x Iz Iy Ix. rewrite Hc. unfold in_window.
    replace ((p0 <=? z + p0) && (z + p0 <? p0 + nz a)) with true
      by (symmetry; rewrite andb_true_iff, Z.leb_le, Z.ltb_lt; lia).
    replace ((p2 <=? y + p2) && (y + p2 <? p2 + ny a)) with true
      by (symmetry; rewrite andb_true_iff, Z.leb_le, Z.ltb_lt; lia).
    replace ((p4 <=? x + p4) && (x + p4 <? p4 + nx a)) with true
      by (symmetry; rewrite andb_true_iff, Z.leb_le, Z.ltb_lt; lia).
    simpl. f_equal; lia.
  - intros z y x Hout. rewrite Hc. unfold in_window.
    destruct (p0 <=? z) eqn:Ez, (z <? p0 + nz a) eqn:Ez', (p2 <=? y) eqn:Ey,
      (y <? p2 + ny a) eqn:Ey', (p4 <=? x) eqn:Ex, (x <? p4 + nx a) eqn:Ex'; simpl;
      try reflexivity.
    rewrite Z.leb_le in Ez, Ey, Ex. rewrite Z.ltb_lt in Ez', Ey', Ex'.
    exfalso. apply Hout. lia.
Qed.

Lemma zero_pad_shift_and_fill_witness :
  exists a', zero_pad (peak_volume 2 (1, 1, 1)) [1; 0; 0; 2; 3; 0] true = Ok a' /\
    nz a' = 3 /\ ny a' = 4 /\ nx a' = 5 /\
    cell a' 2 1 4 = 5%Q /\ cell a' 0 0 0 = 1%Q.
Proof.
  destruct (zero_pad_shift_and_fill (peak_volume 2 (1, 1, 1)) 1 0 0 2 3 0 true)
    as [a' [Ha [Hnz [Hny [Hnx [Hin Hout]]]]]]; try (simpl; lia).
  exists a'. split; [exact Ha|]. simpl in Hnz, Hny, Hnx.
  split; [exact Hnz|]. split; [exact Hny|]. split; [exact Hnx|]. split.
  - exact (Hin 1 1 1 ltac:(simpl; lia) ltac:(simpl; lia) ltac:(simpl; lia)).
  - apply Hout. simpl. lia.
Defined.

(* ------------------------------------------------------------------ *)
(** ** crop_sym_ZYX *)

Lemma search_down_spec f : forall m r,
  search_down f m = Ok r -> fft_ok r = true /\ 2 <= r <= m.
Proof.
  induction f as [|f IH]; intros m r H; simpl in H;
    destruct (m <? 2) eqn:E; try discriminate;
    destruct (fft_ok m) eqn:F.
  - injection H as <-. apply Z.ltb_ge in E. split; [exact F|lia].
  - discriminate.
  - injection H as <-. apply Z.ltb_ge in E. split; [exact F|lia].
  - destruct (IH _ _ H) as [? ?]. split; [assumption|lia].
Qed.

Lemma smaller_primes_spec n r :
  smaller_primes n = Ok r -> fft_ok r = true /\ 2 <= r <= n /\ r = 2 * (r / 2).
Proof.
  unfold smaller_primes. intros H. destruct (search_down_spec _ _ _ H) as [F B].
  split; [exact F|]. split; [exact B|].
  destruct (fft_ok_pos r F) as [_ Ev]. apply Z.even_spec in Ev as [k ->].
  rewrite Z.mul_comm, Z.div_mul by lia. lia.
Qed.

Lemma search_down_some f : forall m, 2 <= m <= Z.of_nat f + 2 -> exists r, search_down f m = Ok r.
Proof.
  induction f as [|f IH]; intros m Hm; simpl.
  - assert (m = 2) as -> by lia. exists 2. reflexivity.
  - replace (m <? 2) with false by (symmetry; apply Z.ltb_ge; lia).
    destruct (fft_ok m) eqn:F; [eauto|].
    assert (m <> 2) by (intros ->; discriminate F). apply IH. lia.
Qed.

Lemma smaller_primes_some n : 2 <= n -> exists r, smaller_primes n = Ok r.
Proof. intros H. apply search_down_some. lia. Qed.

Lemma slice3_exact {A} (a : arr3 A) z0 z1 y0 y1 x0 x1 :
  0 <= z0 <= z1 -> z1 <= nz a -> 0 <= y0 <= y1 -> y1 <= ny a -> 0 <= x0 <= x1 -> x1 <= nx a ->
  slice3 a z0 z1 y0 y1 x0 x1 =
  mk_arr3 (z1 - z0) (y1 - y0) (x1 - x0) (fun z y x => cell a (z + z0) (y + y0) (x + x0)).
Proof.
  intros. unfold slice3.
  rewrite (slice_bounds_exact (nz a) z0 z1), (slice_bounds_exact (ny a) y0 y1),
    (slice_bounds_exact (nx a) x0 x1) by lia.
  reflexivity.
Qed.











(** The branch names of [center_fft]'s [fft_option]. *)
Definition FFT_OPTIONS : list string :=
  ["crop_sym_ZYX"; "crop_asym_ZYX"; "pad_sym_Z_crop_sym_YX"; "pad_sym_Z_crop_asym_YX";
   "pad_asym_Z_crop_sym_YX"; "pad_asym_Z_crop_asym_YX"; "pad_sym_Z"; "pad_asym_Z";
   "pad_sym_ZYX"; "pad_asym_ZYX"; "skip"]%string.

(** [center_fft] reads [q_values[0]], [q_values[1]] and [q_values[2]]
    right after checking the shapes of data and mask, before the centering:
    with a mask of the volume's shape, a [q_values] list with fewer than
    three entries, such as the default [[]], makes it raise [IndexError]. *)
Theorem center_fft_short_q_values_raises data mask det frames centering opt fb pad qv :
  nz mask = nz data -> ny mask = ny data -> nx mask = nx data ->
  (List.length qv < 3)%nat ->
  exists w, center_fft data mask det frames centering opt fb pad (Some qv) = Raise (IndexError w).
Proof.
  intros Mz My Mx Hl. unfold center_fft.
  rewrite (valid_ndarray_same _ _ Mz My Mx). cbn [bind].
  unfold cfft_prelude, unpack_q.
  destruct qv as [|a [|b [|c rest]]]; simpl in Hl; [| | |lia].
  - rewrite py_get_short by (simpl; lia). eexists. reflexivity.
  - rewrite (py_get_nth _ _ 0 a) by first [reflexivity | lia].
    rewrite py_get_short by (simpl; lia). eexists. reflexivity.
  - rewrite (py_get_nth _ _ 0 a), (py_get_nth _ _ 1 b) by first [reflexivity | lia].
    rewrite py_get_short by (simpl; lia). eexists. reflexivity.
Qed.

Lemma center_fft_short_q_values_raises_witness :
  (List.length (@nil (list Q)) < 3)%nat /\
  exists w, center_fft (peak_volume 5 (2, 2, 2)) (peak_volume 5 (2, 2, 2)) detector_full
    [1; 1; 1; 1; 1] "max" "skip" [] [] (Some []) = Raise (IndexError w).
Proof.
  split; [simpl; lia|].
  apply (center_fft_short_q_values_raises (peak_volume 5 (2, 2, 2)) (peak_volume 5 (2, 2, 2)));
    [reflexivity | reflexivity | reflexivity | simpl; lia].
Defined.

(** With a mask of the volume's shape and a symmetric box around the
    center that is non-empty, an [fft_option] that names none of the eleven
    branches makes [center_fft] raise
    [ValueError("Incorrect value for 'fft_option'")]; the default
    ["crop_asymmetric_ZYX"] is such a name. *)
Theorem center_fft_unknown_option_raises data mask det frames centering opt fb pad q
    iz iy ix qs :
  nz mask = nz data -> ny mask = ny data -> nx mask = nx data ->
  cfft_prelude data det centering fb q = Ok ((iz, iy, ix), qs) ->
  Z.min iz (nz data - iz) <> 0 -> Z.min iy (ny data - iy) <> 0 ->
  Z.min ix (nx data - ix) <> 0 ->
  ~ In opt FFT_OPTIONS ->
  center_fft data mask det frames centering opt fb pad q
  = Raise (ValueError "Incorrect value for 'fft_option'").
Proof.
  intros Mz My Mx Hp Hz Hy Hx Hin. destruct qs as [[qx qz] qy].
  pose proof (valid_ndarray_same _ _ Mz My Mx) as Hv.
  rewrite (center_fft_reduce _ _ _ _ _ _ _ _ _ _ _ _ _ _ _ Hv Hp). unfold max_box.
  rewrite effective_option_nondegenerate by lia.
  assert (Hne : forall s, In s FFT_OPTIONS -> (opt =? s)%string = false).
  { intros s Hs. apply String.eqb_neq. intros ->. exact (Hin Hs). }
  unfold resize.
  repeat match goal with
         | |- context [(opt =? ?s)%string] => rewrite (Hne s) by (simpl; tauto)
         end.
  reflexivity.
Qed.

Lemma center_fft_unknown_option_raises_witness :
  center_fft (peak_volume 5 (2, 2, 2)) (peak_volume 5 (2, 2, 2)) detector_full
    [1; 1; 1; 1; 1] "max" "crop_asymmetric_ZYX" [] [] None
  = Raise (ValueError "Incorrect value for 'fft_option'").
Proof.
  assert (Hp : cfft_prelude (peak_volume 5 (2, 2, 2)) detector_full "max" [] None
               = Ok ((2, 2, 2), ([], [], []))) by (vm_compute; reflexivity).
  apply (center_fft_unknown_option_raises (peak_volume 5 (2, 2, 2)) (peak_volume 5 (2, 2, 2))
           _ _ _ _ _ _ _ 2 2 2 _ eq_refl eq_refl eq_refl Hp);
    [simpl; lia | simpl; lia | simpl; lia |].
  simpl. intros H.
  repeat (destruct H as [H|H]; [discriminate H|]). exact H.
Defined.

(** Under [fft_option = "crop_sym_ZYX"], with a center strictly inside
    the data on every axis and a mask of the data's shape, [center_fft]
    succeeds with a zero pad width; each output extent is FFT-compatible
    and at most the maximal symmetric box, and data and mask are the
    windows of that extent centered on the peak: output voxel
    [(nz'/2, ny'/2, nx'/2)] is input voxel [(iz0, iy0, ix0)]. *)
Theorem center_fft_crop_sym_centers data mask det frames centering fb pad q iz iy ix qs :
  cfft_prelude data det centering fb q = Ok ((iz, iy, ix), qs) ->
  0 < iz < nz data -> 0 < iy < ny data -> 0 < ix < nx data ->
  nz mask = nz data -> ny mask = ny data -> nx mask = nx data ->
  exists d' m' q' f',
    center_fft data mask det frames centering "crop_sym_ZYX" fb pad q
    = Ok (d', m', zeros6, q', f') /\
    fft_ok (nz d') = true /\ fft_ok (ny d') = true /\ fft_ok (nx d') = true /\
    nz d' <= 2 * Z.min iz (nz data - iz) /\ ny d' <= 2 * Z.min iy (ny data - iy) /\
    nx d' <= 2 * Z.min ix (nx data - ix) /\
    nz m' = nz d' /\ ny m' = ny d' /\ nx m' = nx d' /\
    (forall z y x, cell d' z y x =
       cell data (z + iz - nz d' / 2) (y + iy - ny d' / 2) (x + ix - nx d' / 2)) /\
    (forall z y x, cell m' z y x =
       cell mask (z + iz - nz d' / 2) (y + iy - ny d' / 2) (x + ix - nx d' / 2)).
Proof.
  intros Hp Hz Hy Hx Mz My Mx. destruct qs as [[qx qz] qy].
  pose proof (valid_ndarray_same _ _ Mz My Mx) as Hv.
  rewrite (center_fft_reduce _ _ _ _ _ _ _ _ _ _ _ _ _ _ _ Hv Hp). unfold max_box.
  rewrite effective_option_nondegenerate by lia.
  rewrite (Z.abs_eq (2 * Z.min iz (nz data - iz))), (Z.abs_eq (2 * Z.min ix (nx data - ix)))
    by lia.
  destruct (smaller_primes_some (2 * Z.min iz (nz data - iz))) as [rz Hrz]; [lia|].
  destruct (smaller_primes_some (2 * Z.min iy (ny data - iy))) as [ry Hry]; [lia|].
  destruct (smaller_primes_some (2 * Z.min ix (nx data - ix))) as [rx Hrx]; [lia|].
  destruct (smaller_primes_spec _ _ Hrz) as [Fz [Bz Ez]].
  destruct (smaller_primes_spec _ _ Hry) as [Fy [By Ey]].
  destruct (smaller_primes_spec _ _ Hrx) as [Fx [Bx Ex]].
  unfold resize, smaller3. rewrite Hrz, Hry, Hrx.
  cbn -[py_fill py_slice slice3 has_q Z.div Z.add Z.sub Z.ltb Z.mul Z.min].
  rewrite (slice3_exact data), (slice3_exact mask) by lia.
  destruct (has_q q).
  all: do 4 eexists; split; [reflexivity|]; cbn [nz ny nx cell].
  all: replace (iz + rz / 2 - (iz - rz / 2)) with rz by lia;
       replace (iy + ry / 2 - (iy - ry / 2)) with ry by lia;
       replace (ix + rx / 2 - (ix - rx / 2)) with rx by lia.
  all: split; [exact Fz|]; split; [exact Fy|]; split; [exact Fx|].
  all: split; [lia|]; split; [lia|]; split; [lia|].
  all: split; [reflexivity|]; split; [reflexivity|]; split; [reflexivity|].
  all: split; intros z y x; f_equal; lia.
Qed.

Lemma center_fft_crop_sym_centers_witness :
  exists d' m' q' f',
    center_fft (peak_volume 5 (2, 2, 2)) (peak_volume 5 (1, 1, 1)) detector_full
      [1; 1; 1; 1; 1] "max" "crop_sym_ZYX" [] [] None = Ok (d', m', zeros6, q', f') /\
    cell d' (nz d' / 2) (ny d' / 2) (nx d' / 2) = 5%Q.
Proof.
  assert (Hp : cfft_prelude (peak_volume 5 (2, 2, 2)) detector_full "max" [] None
               = Ok ((2, 2, 2), ([], [], []))) by (vm_compute; reflexivity).
  destruct (center_fft_crop_sym_centers (peak_volume 5 (2, 2, 2)) (peak_volume 5 (1, 1, 1))
              detector_full [1; 1; 1; 1; 1] "max" [] [] None 2 2 2 _ Hp)
    as [d' [m' [q' [f' [Hc [_ [_ [_ [_ [_ [_ [_ [_ [_ [Hd _]]]]]]]]]]]]]]];
    try (simpl; lia).
  exists d', m', q', f'. split; [exact Hc|]. rewrite Hd.
  replace (nz d' / 2 + 2 - nz d' / 2) with 2 by lia.
  replace (ny d' / 2 + 2 - ny d' / 2) with 2 by lia.
  replace (nx d' / 2 + 2 - nx d' / 2) with 2 by lia.
  reflexivity.
Defined.

(* ------------------------------------------------------------------ *)
(** ** pad_sym_Z *)

Lemma py_int_inject k : py_int (inject_Z k) = k.
Proof.
  unfold py_int. destruct (Qle_bool 0 (inject_Z k)) eqn:E.
  - apply Qfloor_Z.
  - change (- inject_Z k)%Q with (inject_Z (- k)). rewrite Qfloor_Z. lia.
Qed.

Lemma py_int_Qeq a b : (a == b)%Q -> py_int a = py_int b.
Proof.
  intros E. unfold py_int.
  assert (Hle : Qle_bool 0 a = Qle_bool 0 b).
  { destruct (Qle_bool 0 a) eqn:A, (Qle_bool 0 b) eqn:B; try reflexivity;
      apply Qle_bool_iff in A || apply Qle_bool_iff in B;
      [ assert (Qle_bool 0 b = true) by (apply Qle_bool_iff; rewrite <- E; exact A)
      | assert (Qle_bool 0 a = true) by (apply Qle_bool_iff; rewrite E; exact B) ];
      congruence. }
  rewrite Hle. destruct (Qle_bool 0 b).
  - apply Qfloor_comp. exact E.
  - f_equal. apply Qfloor_comp. rewrite E. reflexivity.
Qed.

Lemma sym_pad_lo_exact p c n :
  p = 2 * (p / 2) -> 2 * (n - c) <= p -> sym_pad_lo p c n = p / 2 - c.
Proof.
  intros Ev H. unfold sym_pad_lo, py_min.
  assert (E : (inject_Z p / 2 - inject_Z c == inject_Z (p / 2 - c))%Q)
    by (unfold Qeq; simpl; lia).
  destruct (Qlt_bool (inject_Z (p - n)) (inject_Z p / 2 - inject_Z c)) eqn:L.
  - exfalso. unfold Qlt_bool in L. apply negb_true_iff in L.
    assert (Qle_bool (inject_Z p / 2 - inject_Z c) (inject_Z (p - n)) = true)
      by (apply Qle_bool_iff; rewrite E; rewrite <- Zle_Qle; lia).
    congruence.
  - rewrite (py_int_Qeq _ _ E), py_int_inject. reflexivity.
Qed.

Lemma sym_pad_hi_exact p c n :
  p = 2 * (p / 2) -> 2 * c <= p -> sym_pad_hi p c n = p / 2 - n + c.
Proof.
  intros Ev H. unfold sym_pad_hi, py_min.
  assert (E : (inject_Z p / 2 - inject_Z n + inject_Z c == inject_Z (p / 2 - n + c))%Q)
    by (unfold Qeq; simpl; lia).
  destruct (Qlt_bool (inject_Z (p - n)) (inject_Z p / 2 - inject_Z n + inject_Z c)) eqn:L.
  - exfalso. unfold Qlt_bool in L. apply negb_true_iff in L.
    assert (Qle_bool (inject_Z p / 2 - inject_Z n + inject_Z c) (inject_Z (p - n)) = true)
      by (apply Qle_bool_iff; rewrite E; rewrite <- Zle_Qle; lia).
    congruence.
  - rewrite (py_int_Qeq _ _ E), py_int_inject. reflexivity.
Qed.

Lemma check_fft_ok msg p : check_fft msg p = Ok tt -> fft_ok p = true.
Proof.
  unfold check_fft. destruct (p =? higher_primes p) eqn:E; [|discriminate].
  intros _. apply higher_primes_fixed, Z.eqb_eq, E.
Qed.

(** Under [fft_option = "pad_sym_Z"] with [pad_size = [p0, p1, p2]], a
    center strictly inside the data, a mask of the data's shape and a
    [p0] at least twice the distance from the center to either end of the
    first axis: a successful [center_fft] has an FFT-compatible [p0], pads
    the first axis only, by [p0/2 - iz0] frames before and
    [p0/2 - nbz + iz0] after, returns data and mask of [p0] frames with
    the input placed so that frame [iz0] lands on [p0/2], and fills the
    added frames with 0 in the data and 1 in the mask. *)
Theorem center_fft_pad_sym_Z_centers data mask det frames centering fb p0 p1 p2 q
    iz iy ix qs d' m' pw q' f' :
  cfft_prelude data det centering fb q = Ok ((iz, iy, ix), qs) ->
  0 < iz < nz data -> 0 < iy < ny data -> 0 < ix < nx data ->
  nz mask = nz data -> ny mask = ny data -> nx mask = nx data ->
  2 * iz <= p0 -> 2 * (nz data - iz) <= p0 ->
  center_fft data mask det frames centering "pad_sym_Z" fb [p0; p1; p2] q
  = Ok (d', m', pw, q', f') ->
  fft_ok p0 = true /\
  pw = [p0 / 2 - iz; p0 / 2 - nz data + iz; 0; 0; 0; 0] /\
  nz d' = p0 /\ ny d' = ny data /\ nx d' = nx data /\
  nz m' = p0 /\ ny m' = ny data /\ nx m' = nx data /\
  (forall z y x, 0 <= z < nz data -> 0 <= y < ny data -> 0 <= x < nx data ->
     cell d' (z + p0 / 2 - iz) y x = cell data z y x /\
     cell m' (z + p0 / 2 - iz) y x = cell mask z y x) /\
  (forall z y x, z < p0 / 2 - iz \/ p0 / 2 - iz + nz data <= z ->
     cell d' z y x = 0%Q /\ cell m' z y x = 1%Q).
Proof.
  intros Hp Hz Hy Hx Mz My Mx Lo Hi H. destruct qs as [[qx qz] qy].
  pose proof (valid_ndarray_same _ _ Mz My Mx) as Hv.
  rewrite (center_fft_reduce _ _ _ _ _ _ _ _ _ _ _ _ _ _ _ Hv Hp) in H. unfold max_box in H.
  rewrite effective_option_nondegenerate in H by lia.
  peel H. resize_red Ha. peel Ha.
  injection Ha as <-. cbn in H. injection H as <- <- <- <- <-.
  cbn in Ha1. injection Ha1 as <-. destruct a2.
  pose proof (check_fft_ok _ _ Ha2) as F.
  assert (Ev : p0 = 2 * (p0 / 2)).
  { destruct (fft_ok_pos p0 F) as [_ E]. apply Z.even_spec in E as [k ->].
    rewrite Z.mul_comm, Z.div_mul by lia. lia. }
  rewrite (sym_pad_lo_exact p0 iz (nz data) Ev Hi), (sym_pad_hi_exact p0 iz (nz data) Ev Lo)
    in Ha3, Ha4 |- *.
  destruct (zero_pad_correct data (p0 / 2 - iz) (p0 / 2 - nz data + iz) 0 0 0 0 false)
    as [d [Hd [Dz [Dy [Dx Dc]]]]]; try lia.
  destruct (zero_pad_correct mask (p0 / 2 - iz) (p0 / 2 - nz data + iz) 0 0 0 0 true)
    as [m [Hm [Nz [Ny [Nx Nc]]]]]; try lia.
  rewrite Hd in Ha3. injection Ha3 as <-. rewrite Hm in Ha4. injection Ha4 as <-.
  split; [exact F|]. split; [reflexivity|].
  split; [lia|]. split; [lia|]. split; [lia|].
  split; [lia|]. split; [lia|]. split; [lia|]. split.
  - intros z y x Iz Iy Ix. rewrite Dc, Nc. unfold in_window. rewrite Mz, My, Mx.
    replace ((p0 / 2 - iz <=? z + p0 / 2 - iz) && (z + p0 / 2 - iz <? p0 / 2 - iz + nz data))
      with true by (symmetry; rewrite andb_true_iff, Z.leb_le, Z.ltb_lt; lia).
    replace ((0 <=? y) && (y <? 0 + ny data)) with true
      by (symmetry; rewrite andb_true_iff, Z.leb_le, Z.ltb_lt; lia).
    replace ((0 <=? x) && (x <? 0 + nx data)) with true
      by (symmetry; rewrite andb_true_iff, Z.leb_le, Z.ltb_lt; lia).
    simpl. split; f_equal; lia.
  - intros z y x Out. rewrite Dc, Nc. unfold in_window. rewrite Mz.
    replace ((p0 / 2 - iz <=? z) && (z <? p0 / 2 - iz + nz data)) with false
      by (symmetry; apply andb_false_iff;
          destruct Out; [left; apply Z.leb_gt | right; apply Z.ltb_ge]; lia).
    split; reflexivity.
Qed.

Lemma center_fft_pad_sym_Z_centers_witness :
  exists d' m' q' f',
    center_fft (peak_volume 4 (2, 2, 2)) (peak_volume 4 (2, 2, 2)) detector_full
      [1; 1; 1; 1] "max" "pad_sym_Z" [] [8; 4; 4] None = Ok (d', m', [2; 2; 0; 0; 0; 0], q', f') /\
    nz d' = 8 /\ cell d' 4 2 2 = 5%Q /\ cell m' 0 2 2 = 1%Q.
Proof.
  assert (Hp : cfft_prelude (peak_volume 4 (2, 2, 2)) detector_full "max" [] None
               = Ok ((2, 2, 2), ([], [], []))) by (vm_compute; reflexivity).
  destruct (center_fft (peak_volume 4 (2, 2, 2)) (peak_volume 4 (2, 2, 2)) detector_full
              [1; 1; 1; 1] "max" "pad_sym_Z" [] [8; 4; 4] None)
    as [[[[[d' m'] pw] q'] f']|e] eqn:Hc; [|vm_compute in Hc; discriminate Hc].
  destruct (center_fft_pad_sym_Z_centers _ (peak_volume 4 (2, 2, 2)) _
              [1; 1; 1; 1] _ _ 8 4 4 _ 2 2 2 _ d' m' pw q' f' Hp)
    as [_ [Hpw [Hnz [_ [_ [_ [_ [_ [Hin Hout]]]]]]]]]; try (simpl; lia); [exact Hc|].
  simpl in Hpw. subst pw. exists d', m', q', f'.
  split; [reflexivity|]. split; [exact Hnz|]. split.
  - destruct (Hin 2 2 2) as [Hd _]; try (simpl; lia). exact Hd.
  - destruct (Hout 0 2 2) as [_ Hm]; [simpl; lia|]. exact Hm.
Defined.

(* ------------------------------------------------------------------ *)
(** ** PeakFinder on an empty signal *)

Lemma in_zrange z n : In z (zrange n) -> 0 <= z < n.
Proof.
  unfold zrange. intros H. apply in_map_iff in H as [k [<- Hk]].
  apply in_seq in Hk. lia.
Qed.

Lemma in_idx3 (a : arr3 Q) z y x :
  In (z, y, x) (flat_map (fun z => flat_map (fun y => map (fun x => (z, y, x))
     (zrange (nx a))) (zrange (ny a))) (zrange (nz a))) ->
  0 <= z < nz a /\ 0 <= y < ny a /\ 0 <= x < nx a.
Proof.
  intros H. apply in_flat_map in H as [z' [Hz H]].
  apply in_flat_map in H as [y' [Hy H]].
  apply in_map_iff in H as [x' [E Hx]]. injection E as <- <- <-.
  apply in_zrange in Hz, Hy, Hx. auto.
Qed.

Lemma fold_left_fixed {A B} (f : A -> B -> A) (l : list B) (a : A) :
  (forall b, In b l -> f a b = a) -> fold_left f l a = a.
Proof.
  induction l as [|b l IH]; intros H; simpl; [reflexivity|].
  rewrite (H b (or_introl eq_refl)). apply IH. intros b' Hb. apply H. right. exact Hb.
Qed.

Lemma qsum_zero {A} (w : A -> Q) (l : list A) :
  (forall p, In p l -> (w p == 0)%Q) -> (qsum (map w l) == 0)%Q.
Proof.
  induction l as [|p l IH]; intros H; simpl; [reflexivity|].
  unfold qsum in IH. rewrite (H p (or_introl eq_refl)), IH; [reflexivity|].
  intros p' Hp. apply H. right. exact Hp.
Qed.

Section ZeroArray.
Variable arr : arr3 Q.
Hypothesis Hz : 0 < nz arr.
Hypothesis Hy : 0 < ny arr.
Hypothesis Hx : 0 < nx arr.
Hypothesis Hzero : forall z y x, 0 <= z < nz arr -> 0 <= y < ny arr -> 0 <= x < nx arr ->
  (cell arr z y x == 0)%Q.

Lemma argmax_abs_zero : argmax_abs arr = Ok (0, 0, 0).
Proof.
  unfold argmax_abs.
  replace (size3 arr =? 0) with false
    by (symmetry; apply Z.eqb_neq; unfold size3; nia).
  f_equal. apply fold_left_fixed. intros [[z y] x] Hin.
  apply in_idx3 in Hin as [Iz [Iy Ix]].
  unfold Qlt_bool.
  replace (Qle_bool (Qabs (cell arr z y x)) (Qabs (cell arr 0 0 0))) with true;
    [reflexivity|].
  symmetry. apply Qle_bool_iff.
  rewrite (Hzero z y x), (Hzero 0 0 0) by lia. apply Qle_refl.
Qed.

Lemma center_of_mass3_zero : center_of_mass3 arr = (NNonFinite, NNonFinite, NNonFinite).
Proof.
  unfold center_of_mass3.
  replace (Qeq_bool _ 0) with true; [reflexivity|].
  symmetry. apply Qeq_bool_iff, qsum_zero.
  intros [[z y] x] Hin. apply in_idx3 in Hin as [Iz [Iy Ix]]. apply Hzero; assumption.
Qed.

Lemma getitem3_origin : exists v, getitem3 arr (0, 0, 0) = Ok v.
Proof.
  unfold getitem3, py_index.
  rewrite (proj2 (Z.ltb_lt 0 (nz arr)) Hz), (proj2 (Z.ltb_lt 0 (ny arr)) Hy),
    (proj2 (Z.ltb_lt 0 (nx arr)) Hx).
  eexists. reflexivity.
Qed.

End ZeroArray.

(** On an array whose voxels are all 0, [find_peak]'s center of mass is
    NaN and [int(np.rint(nan))] raises: constructing a [PeakFinder], with
    any valid peak method, ROI and binning, raises
    [ValueError("cannot convert float NaN to integer")]. *)
Theorem peakfinder_init_zero_array_raises arr roi bin pm :
  0 < nz arr -> 0 < ny arr -> 0 < nx arr ->
  (forall z y x, 0 <= z < nz arr -> 0 <= y < ny arr -> 0 <= x < nx arr ->
     (cell arr z y x == 0)%Q) ->
  In pm PeakFinder.PEAK_METHODS ->
  PeakFinder.init arr roi bin pm = Raise (ValueError "cannot convert float NaN to integer").
Proof.
  intros Hz Hy Hx H0 Hpm. unfold PeakFinder.init.
  replace (existsb (String.eqb pm) PeakFinder.PEAK_METHODS) with true
    by (symmetry; apply existsb_exists; exists pm; split; [exact Hpm | apply String.eqb_refl]).
  cbn [bind]. unfold PeakFinder.find_peak.
  rewrite (argmax_abs_zero arr Hz Hy Hx H0). cbn [bind].
  destruct (getitem3_origin arr Hz Hy Hx) as [v Hv]. rewrite Hv. cbn [bind].
  rewrite (center_of_mass3_zero arr H0). reflexivity.
Qed.

Lemma peakfinder_init_zero_array_raises_witness :
  PeakFinder.init (mk_arr3 2 3 4 (fun _ _ _ => 0%Q)) None None "max_com"
  = Raise (ValueError "cannot convert float NaN to integer").
Proof.
  apply peakfinder_init_zero_array_raises; simpl; try lia.
  - intros. reflexivity.
  - tauto.
Defined.

Lemma Z_match_id y : match y with 0 => 0 | Z.pos p => Z.pos p | Z.neg p => Z.neg p end = y.
Proof. destruct y; reflexivity. Qed.

(** [_roi_center] reads back a peak that [find_peak] stored in the full,
    unbinned detector frame: the detector axes return to the array frame,
    but axis 0 is not divided by [binning[0]], so with [binning[0] > 1]
    [__init__] slices [array[p0 * binning[0], :, :]] instead of the peak's
    frame [p0]. *)
Theorem peakfinder_roi_center_unbinned_axis0 y0 y1 x0 x1 b0 b1 b2 peaks pm p0 p1 p2 v :
  b1 <> 0 -> b2 <> 0 ->
  PeakFinder.get_indices_full_detector (y0, y1, x0, x1) (b0, b1, b2) (p0, p1, p2) = Ok v ->
  PeakFinder.dict_get peaks pm = Ok v ->
  PeakFinder._roi_center (y0, y1, x0, x1) (b0, b1, b2) peaks pm = Ok (p0 * b0, p1, p2).
Proof.
  intros H1 H2 Hv Hd.
  unfold PeakFinder.get_indices_full_detector, PeakFinder._unbin, PeakFinder._offset in Hv.
  cbn -[Z.mul Z.add] in Hv. injection Hv as <-.
  unfold PeakFinder._roi_center. rewrite Hd. cbn [bind].
  unfold py_floordiv.
  rewrite (proj2 (Z.eqb_neq b1 0) H1), (proj2 (Z.eqb_neq b2 0) H2). cbn [bind].
  rewrite !Z_match_id.
  replace (p1 * b1 + y0 - y0) with (p1 * b1) by ring.
  replace (p2 * b2 + x0 - x0) with (p2 * b2) by ring.
  rewrite !Z.div_mul by assumption. reflexivity.
Qed.

Lemma peakfinder_roi_center_unbinned_axis0_witness :
  PeakFinder._roi_center (0, 4, 0, 4) (2, 1, 1)
    [("max", (2, 1, 1)); ("com", (2, 1, 1)); ("max_com", (2, 1, 1))]%string "max"
  = Ok (1 * 2, 1, 1).
Proof.
  apply (peakfinder_roi_center_unbinned_axis0 0 4 0 4 2 1 1 _ _ 1 1 1 (2, 1, 1));
    [lia | lia | reflexivity | reflexivity].
Defined.

(* ------------------------------------------------------------------ *)
(** ** Regridder post-pass, voxel by voxel *)

Lemma py_int_zero q : Qeq_bool q 0 = true -> py_int q = 0.
Proof.
  intros E. apply Qeq_bool_iff in E. rewrite (py_int_Qeq _ _ E). reflexivity.
Qed.

(** The lab-frame post-pass, voxel by voxel: a voxel whose interpolated
    data is NaN or whose interpolated mask is nonzero (NaN included) ends
    with mask 1 and data 0; every other voxel keeps its data and gets
    mask 0. *)
Theorem labframe_postpass_voxel_formula d m i a b :
  List.length d = List.length m -> nth_error d i = Some a -> nth_error m i = Some b ->
  nth_error (fst (labframe_postpass d m)) i
    = Some (if isnan a || nonzero b then Fin 0 else a) /\
  nth_error (snd (labframe_postpass d m)) i
    = Some (if isnan a || nonzero b then 1 else 0).
Proof.
  intros Hlen Ha Hb.
  destruct (postpass_pointwise labframe_postpass eq_refl labframe_postpass_cons
              labframe_voxel d m Hlen) as [_ [_ H3]].
  destruct (H3 i a b Ha Hb) as [a' [b' [Ha' [Hb' [Hv _]]]]].
  rewrite Ha', Hb'.
  destruct a as [qa|], b as [qb|];
    unfold labframe_postpass, mask_assign, astype_int in Hv; cbn -[py_int] in Hv |- *.
  - destruct (Qeq_bool qb 0) eqn:E; cbn -[py_int] in Hv |- *.
    + rewrite (py_int_zero qb E) in Hv. cbn in Hv.
      injection Hv as <- <-. split; reflexivity.
    + cbn in Hv. injection Hv as <- <-. split; reflexivity.
  - cbn in Hv. injection Hv as <- <-. split; reflexivity.
  - cbn in Hv. injection Hv as <- <-. split; reflexivity.
  - cbn in Hv. injection Hv as <- <-. split; reflexivity.
Qed.

Lemma labframe_postpass_voxel_formula_witness :
  nth_error (fst (labframe_postpass [Fin 3; NaN; Fin 4] [Fin 0; Fin 0; Fin (1 # 2)])) 2
    = Some (Fin 0) /\
  nth_error (snd (labframe_postpass [Fin 3; NaN; Fin 4] [Fin 0; Fin 0; Fin (1 # 2)])) 2
    = Some 1.
Proof.
  exact (labframe_postpass_voxel_formula [Fin 3; NaN; Fin 4] [Fin 0; Fin 0; Fin (1 # 2)] 2
           (Fin 4) (Fin (1 # 2)) eq_refl eq_refl eq_refl).
Defined.

(** The xrayutilities post-pass, voxel by voxel: a voxel whose
    interpolated data or mask is NaN ends with mask 1 and data 0; any other
    voxel gets the mask truncated to an integer ([astype(int)]), and keeps
    its data exactly when that integer is 0. A fractional mask value such
    as 0.5 thus becomes 0 (valid), unlike in the lab-frame post-pass. *)
Theorem xrayutil_postpass_voxel_formula d m i a b :
  List.length d = List.length m -> nth_error d i = Some a -> nth_error m i = Some b ->
  let b' := if isnan a || isnan b then 1 else astype_int b in
  nth_error (fst (xrayutil_postpass d m)) i = Some (if b' =? 0 then a else Fin 0) /\
  nth_error (snd (xrayutil_postpass d m)) i = Some b'.
Proof.
  intros Hlen Ha Hb b'.
  destruct (postpass_pointwise xrayutil_postpass eq_refl xrayutil_postpass_cons
              xrayutil_voxel d m Hlen) as [_ [_ H3]].
  destruct (H3 i a b Ha Hb) as [a' [b'' [Ha' [Hb' [Hv _]]]]].
  rewrite Ha', Hb'. subst b'.
  destruct a as [qa|], b as [qb|];
    unfold xrayutil_postpass, mask_assign, astype_int in Hv; cbn -[py_int] in Hv |- *;
    injection Hv as <- <-; (split; [try destruct (py_int _ =? 0) | ]); reflexivity.
Qed.

Lemma xrayutil_postpass_voxel_formula_witness :
  nth_error (fst (xrayutil_postpass [Fin 3; NaN; Fin 4] [Fin 0; Fin 0; Fin (1 # 2)])) 2
    = Some (Fin 4) /\
  nth_error (snd (xrayutil_postpass [Fin 3; NaN; Fin 4] [Fin 0; Fin 0; Fin (1 # 2)])) 2
    = Some 0.
Proof.
  exact (xrayutil_postpass_voxel_formula [Fin 3; NaN; Fin 4] [Fin 0; Fin 0; Fin (1 # 2)] 2
           (Fin 4) (Fin (1 # 2)) eq_refl eq_refl eq_refl).
Defined.

(* ------------------------------------------------------------------ *)
(** ** center_fft: the [fix_bragg] override *)

(** With [fix_bragg = [fz, fy, fx]] given in the full, unbinned detector
    frame, a successful center resolution discards the centering method's
    result and returns [(fz, round((fy - roi[0]) / (pb[1] * b[1])),
    round((fx - roi[2]) / (pb[2] * b[2])))], with [pb] the preprocessing
    binning, [b] the detector binning and round half to even; both binning
    products are then nonzero. *)
Theorem center_fft_fix_bragg_center data det centering fz fy fx q qx qz qy
    r0 r2 pb1 pb2 b1 b2 c :
  nth_error (roi det) 0 = Some r0 -> nth_error (roi det) 2 = Some r2 ->
  nth_error (preprocessing_binning det) 1 = Some pb1 ->
  nth_error (preprocessing_binning det) 2 = Some pb2 ->
  nth_error (det_binning det) 1 = Some b1 -> nth_error (det_binning det) 2 = Some b2 ->
  resolve_center data det centering [fz; fy; fx] q qx qz qy = Ok c ->
  c = (fz, round_half_even (inject_Z (fy - r0) / inject_Z (pb1 * b1)),
       round_half_even (inject_Z (fx - r2) / inject_Z (pb2 * b2)))%Q /\
  pb1 * b1 <> 0 /\ pb2 * b2 <> 0.
Proof.
  intros R0 R2 P1 P2 B1 B2 H. unfold resolve_center in H.
  peel H. clear Ha.
  rewrite (py_get_nth _ _ 0 r0), (py_get_nth _ _ 1 pb1), (py_get_nth _ _ 1 b1),
    (py_get_nth _ _ 2 r2), (py_get_nth _ _ 2 pb2), (py_get_nth _ _ 2 b2) in Ha0
    by first [assumption | lia].
  cbn [bind] in Ha0.
  destruct (pb1 * b1 =? 0) eqn:E1; cbn [bind] in Ha0; [discriminate|].
  destruct (pb2 * b2 =? 0) eqn:E2; cbn [bind] in Ha0; [discriminate|].
  injection Ha0 as <- <- <-. cbn in Ha1, Ha2, Ha3.
  injection Ha1 as <-. injection Ha2 as <-. injection Ha3 as <-. injection H as <- <- <-.
  apply Z.eqb_neq in E1, E2. auto.
Qed.

Lemma center_fft_fix_bragg_center_witness :
  resolve_center (peak_volume 5 (2, 2, 2)) (mk_detector [10; 20; 30; 40] [1; 2; 2] [1; 1; 2])
    "max" [2; 16; 34] None [] [] [] = Ok (2, 3, 1) /\
  (2, 3, 1) = (2, round_half_even (inject_Z (16 - 10) / inject_Z (2 * 1))%Q,
               round_half_even (inject_Z (34 - 30) / inject_Z (2 * 2))%Q).
Proof.
  assert (H : resolve_center (peak_volume 5 (2, 2, 2))
                (mk_detector [10; 20; 30; 40] [1; 2; 2] [1; 1; 2])
                "max" [2; 16; 34] None [] [] [] = Ok (2, 3, 1)) by (vm_compute; reflexivity).
  split; [exact H|].
  exact (proj1 (center_fft_fix_bragg_center _ (mk_detector [10; 20; 30; 40] [1; 2; 2] [1; 1; 2]) _ 2 16 34 None [] [] [] 10 30 2 2 1 2 _
                  eq_refl eq_refl eq_refl eq_refl eq_refl eq_refl H)).
Defined.

(** A non-empty [fix_bragg] whose length is not 3 makes [center_fft]
    raise [ValueError("fix_bragg should be a list of 3 integers")], here
    with a mask of the volume's shape, the default centering ["max"] on a
    non-empty array and no q values. *)
Theorem center_fft_fix_bragg_length_raises data mask det frames opt fb pad :
  nz mask = nz data -> ny mask = ny data -> nx mask = nx data ->
  size3 data <> 0 -> fb <> [] -> List.length fb <> 3%nat ->
  center_fft data mask det frames "max" opt fb pad None
  = Raise (ValueError "fix_bragg should be a list of 3 integers").
Proof.
  intros Mz My Mx Hs Hfb Hl. unfold center_fft.
  rewrite (valid_ndarray_same _ _ Mz My Mx). cbn [bind].
  unfold cfft_prelude, resolve_center, argmax_abs.
  rewrite (proj2 (Z.eqb_neq _ 0) Hs). cbn [unpack_q bind String.eqb].
  destruct (fold_left _ _ _) as [[z y] x]. cbn [bind q_truthy].
  destruct fb as [|a [|b [|c [|d rest]]]]; [congruence | reflexivity | reflexivity
    | simpl in Hl; lia | reflexivity].
Qed.

Lemma center_fft_fix_bragg_length_raises_witness :
  center_fft (peak_volume 5 (2, 2, 2)) (peak_volume 5 (2, 2, 2)) detector_full
    [1; 1; 1; 1; 1] "max" "skip" [2; 2] [] None
  = Raise (ValueError "fix_bragg should be a list of 3 integers").
Proof.
  apply (center_fft_fix_bragg_length_raises (peak_volume 5 (2, 2, 2)) (peak_volume 5 (2, 2, 2)));
    [reflexivity | reflexivity | reflexivity | vm_compute; discriminate | discriminate
    | simpl; lia].
Defined.

(** Under [fft_option = "crop_asym_ZYX"] with [q_values=None], a mask of
    the volume's shape and a center strictly inside the data, [center_fft]
    crops and then raises [TypeError] on [len(q_values)]: unlike the other
    branches, this one does not test [q_values is not None]. *)
Theorem center_fft_crop_asym_none_q_raises data mask det frames centering fb pad
    iz iy ix qs :
  nz mask = nz data -> ny mask = ny data -> nx mask = nx data ->
  cfft_prelude data det centering fb None = Ok ((iz, iy, ix), qs) ->
  0 < iz < nz data -> 0 < iy < ny data -> 0 < ix < nx data ->
  center_fft data mask det frames centering "crop_asym_ZYX" fb pad None
  = Raise (TypeError "object of type 'NoneType' has no len()").
Proof.
  intros Mz My Mx Hp Hz Hy Hx. destruct qs as [[qx qz] qy].
  pose proof (valid_ndarray_same _ _ Mz My Mx) as Hv.
  rewrite (center_fft_reduce _ _ _ _ _ _ _ _ _ _ _ _ _ _ _ Hv Hp). unfold max_box.
  rewrite effective_option_nondegenerate by lia.
  destruct (smaller_primes_some (nz data)) as [rz Hrz]; [lia|].
  destruct (smaller_primes_some (ny data)) as [ry Hry]; [lia|].
  destruct (smaller_primes_some (nx data)) as [rx Hrx]; [lia|].
  unfold resize, smaller3. rewrite Hrz, Hry, Hrx. reflexivity.
Qed.

Lemma center_fft_crop_asym_none_q_raises_witness :
  center_fft (peak_volume 5 (2, 2, 2)) (peak_volume 5 (2, 2, 2)) detector_full
    [1; 1; 1; 1; 1] "max" "crop_asym_ZYX" [] [] None
  = Raise (TypeError "object of type 'NoneType' has no len()").
Proof.
  assert (Hp : cfft_prelude (peak_volume 5 (2, 2, 2)) detector_full "max" [] None
               = Ok ((2, 2, 2), ([], [], []))) by (vm_compute; reflexivity).
  apply (center_fft_crop_asym_none_q_raises (peak_volume 5 (2, 2, 2)) (peak_volume 5 (2, 2, 2))
           _ _ _ _ _ 2 2 2 _ eq_refl eq_refl eq_refl Hp); simpl; lia.
Defined.

(* ------------------------------------------------------------------ *)
(** ** higher_primes and the asymmetric pad widths *)

Lemma strip_factor_one f p : 2 <= p -> strip_factor f p 1 = 1.
Proof.
  intros Hp. destruct f; simpl; [reflexivity|].
  rewrite Z.mod_1_l by lia. reflexivity.
Qed.

Lemma strip_factor_pow2 : forall k f, (k <= f)%nat -> strip_factor f 2 (2 ^ Z.of_nat k) = 1.
Proof.
  induction k as [|k IH]; intros f Hk.
  - apply strip_factor_one. lia.
  - destruct f as [|f]; [lia|]. cbn [strip_factor].
    rewrite Nat2Z.inj_succ, Z.pow_succ_r by lia.
    replace ((0 <? 2 * 2 ^ Z.of_nat k) && ((2 * 2 ^ Z.of_nat k) mod 2 =? 0)) with true.
    + rewrite Z.mul_comm, Z.div_mul by lia. apply IH. lia.
    + symmetry. apply andb_true_iff. split.
      * apply Z.ltb_lt. pose proof (Z.pow_pos_nonneg 2 (Z.of_nat k)). lia.
      * apply Z.eqb_eq. rewrite Z.mul_comm. apply Z.mod_mul. lia.
Qed.

Lemma fft_ok_pow2 k : (1 <= k)%nat -> fft_ok (2 ^ Z.of_nat k) = true.
Proof.
  intros Hk. unfold fft_ok.
  assert (Hpos : 0 < 2 ^ Z.of_nat k) by (apply Z.pow_pos_nonneg; lia).
  assert (Hge : Z.of_nat k < 2 ^ Z.of_nat k) by (apply Z.pow_gt_lin_r; lia).
  rewrite strip_factor_pow2 by lia.
  rewrite !strip_factor_one by lia.
  replace (Z.even (2 ^ Z.of_nat k)) with true.
  - rewrite (proj2 (Z.ltb_lt _ _) Hpos). reflexivity.
  - symmetry. destruct k as [|k]; [lia|].
    rewrite Nat2Z.inj_succ, Z.pow_succ_r by lia. apply Z.even_mul.
Qed.

Lemma search_up_min f : forall m t, m <= t <= m + Z.of_nat f -> fft_ok t = true ->
  fft_ok (search_up f m) = true /\ m <= search_up f m <= t /\
  forall j, m <= j < search_up f m -> fft_ok j = false.
Proof.
  induction f as [|f IH]; intros m t Ht Ft; rewrite search_up_eq.
  - assert (t = m) as -> by lia. rewrite Ft. split; [exact Ft|]. split; [lia|]. intros; lia.
  - destruct (fft_ok m) eqn:Fm.
    + split; [exact Fm|]. split; [lia|]. intros; lia.
    + assert (m <> t) by congruence.
      destruct (IH (m + 1) t ltac:(lia) Ft) as [F [B M]].
      split; [exact F|]. split; [lia|].
      intros j Hj. destruct (Z.eq_dec j m) as [->|Hne]; [exact Fm|]. apply M. lia.
Qed.

(** [higher_primes n] is the least FFT-compatible size at least [n]. *)
Lemma higher_primes_spec n : 1 <= n ->
  fft_ok (higher_primes n) = true /\ n <= higher_primes n /\
  forall j, n <= j < higher_primes n -> fft_ok j = false.
Proof.
  intros Hn. unfold higher_primes. destruct (n <=? 2) eqn:E.
  - apply Z.leb_le in E. split; [reflexivity|]. split; [lia|].
    intros j Hj. assert (j = 1) as -> by lia. reflexivity.
  - apply Z.leb_gt in E.
    destruct (Z.log2_up_spec n ltac:(lia)) as [L U].
    assert (Hk : 0 < Z.log2_up n) by (apply Z.log2_up_pos; lia).
    destruct (search_up_min (Z.to_nat n) n (2 ^ Z.log2_up n)) as [F [B M]].
    + split; [exact U|].
      replace (Z.log2_up n) with (Z.succ (Z.pred (Z.log2_up n))) by lia.
      rewrite Z.pow_succ_r by lia. lia.
    + replace (Z.log2_up n) with (Z.of_nat (Z.to_nat (Z.log2_up n))) by lia.
      apply fft_ok_pow2. lia.
    + split; [exact F|]. split; [lia|exact M].
Qed.

Lemma py_int_half a : 0 <= a -> py_int (inject_Z a / 2) = a / 2.
Proof.
  intros Ha. unfold py_int.
  replace (Qle_bool 0 (inject_Z a / 2)) with true.
  - unfold Qfloor, Qdiv, Qmult, Qinv, inject_Z. simpl. rewrite Z.mul_1_r. reflexivity.
  - symmetry. apply Qle_bool_iff. unfold Qle, Qdiv, Qmult, Qinv, inject_Z. simpl. lia.
Qed.

Lemma div2_eq k r : 0 <= r < 2 -> (2 * k + r) / 2 = k.
Proof.
  intros H. rewrite Z.add_comm, Z.mul_comm, Z.div_add by lia.
  rewrite Z.div_small by lia. lia.
Qed.

Lemma half_split d : 0 <= d -> (d + 1) / 2 + d / 2 = d.
Proof.
  intros Hd.
  pose proof (Z.mod_pos_bound d 2 ltac:(lia)). pose proof (Z.div_mod d 2 ltac:(lia)).
  assert (E : d mod 2 = 0 \/ d mod 2 = 1) by lia.
  destruct E as [E|E].
  - replace (d + 1) with (2 * (d / 2) + 1) by lia.
    rewrite div2_eq by lia. lia.
  - replace (d + 1) with (2 * (d / 2 + 1) + 0) by lia.
    rewrite div2_eq by lia. lia.
Qed.

Lemma asym_pad_lo_eq n1 n : n <= n1 -> asym_pad_lo n1 n = (n1 - n + 1) / 2.
Proof.
  intros H. unfold asym_pad_lo.
  pose proof (Z.mod_pos_bound (n1 - n) 2 ltac:(lia)).
  pose proof (Z.div_mod (n1 - n) 2 ltac:(lia)).
  rewrite py_int_half by lia.
  assert (E : (n1 - n) mod 2 = 0 \/ (n1 - n) mod 2 = 1) by lia.
  destruct E as [E|E]; rewrite E.
  - replace (n1 - n + 0) with (2 * ((n1 - n) / 2) + 0) by lia.
    replace (n1 - n + 1) with (2 * ((n1 - n) / 2) + 1) by lia.
    rewrite !div2_eq by lia. reflexivity.
  - replace (n1 - n + 1) with (2 * ((n1 - n) / 2 + 1) + 0) by lia.
    rewrite !div2_eq by lia. reflexivity.
Qed.

Lemma asym_pad_hi_eq n1 n : n <= n1 -> asym_pad_hi n1 n = (n1 - n) / 2.
Proof.
  intros H. unfold asym_pad_hi.
  assert (E : (inject_Z (n1 - n + 1) / 2 - inject_Z ((n1 - n) mod 2)
               == inject_Z (n1 - n + 1 - 2 * ((n1 - n) mod 2)) / 2)%Q).
  { generalize ((n1 - n) mod 2). intros m. replace (2 * m) with (m + m) by lia.
    unfold Qeq. simpl. lia. }
  pose proof (Z.mod_pos_bound (n1 - n) 2 ltac:(lia)).
  pose proof (Z.div_mod (n1 - n) 2 ltac:(lia)).
  rewrite (py_int_Qeq _ _ E), py_int_half by lia.
  assert (E2 : (n1 - n) mod 2 = 0 \/ (n1 - n) mod 2 = 1) by lia.
  destruct E2 as [E2|E2]; rewrite E2.
  - replace (n1 - n + 1 - 2 * 0) with (2 * ((n1 - n) / 2) + 1) by lia.
    rewrite div2_eq by lia. reflexivity.
  - replace (n1 - n + 1 - 2 * 1) with (2 * ((n1 - n) / 2) + 0) by lia.
    rewrite div2_eq by lia. reflexivity.
Qed.

(** Under [fft_option = "pad_asym_Z"], with a center strictly inside the
    data and a mask of the data's shape, a successful [center_fft] pads the
    first axis only, up to [nz1 = higher_primes(nbz)], the least
    FFT-compatible size at least [nbz]: [ceil((nz1 - nbz) / 2)] frames
    before and [floor((nz1 - nbz) / 2)] after, zeros in the data and ones
    in the mask, the input frames in between. *)
Theorem center_fft_pad_asym_Z_shape data mask det frames centering fb pad q
    iz iy ix qs d' m' pw q' f' :
  cfft_prelude data det centering fb q = Ok ((iz, iy, ix), qs) ->
  0 < iz < nz data -> 0 < iy < ny data -> 0 < ix < nx data ->
  nz mask = nz data -> ny mask = ny data -> nx mask = nx data ->
  center_fft data mask det frames centering "pad_asym_Z" fb pad q = Ok (d', m', pw, q', f') ->
  let lo := (higher_primes (nz data) - nz data + 1) / 2 in
  let hi := (higher_primes (nz data) - nz data) / 2 in
  pw = [lo; hi; 0; 0; 0; 0] /\
  nz d' = higher_primes (nz data) /\ fft_ok (nz d') = true /\ nz data <= nz d' /\
  (forall j, nz data <= j < nz d' -> fft_ok j = false) /\
  ny d' = ny data /\ nx d' = nx data /\
  nz m' = nz d' /\ ny m' = ny data /\ nx m' = nx data /\
  (forall z y x, 0 <= z < nz data -> 0 <= y < ny data -> 0 <= x < nx data ->
     cell d' (z + lo) y x = cell data z y x /\ cell m' (z + lo) y x = cell mask z y x) /\
  (forall z y x, z < lo \/ lo + nz data <= z ->
     cell d' z y x = 0%Q /\ cell m' z y x = 1%Q).
Proof.
  intros Hp Hz Hy Hx Mz My Mx H lo hi. destruct qs as [[qx qz] qy].
  pose proof (valid_ndarray_same _ _ Mz My Mx) as Hv.
  rewrite (center_fft_reduce _ _ _ _ _ _ _ _ _ _ _ _ _ _ _ Hv Hp) in H. unfold max_box in H.
  rewrite effective_option_nondegenerate in H by lia.
  peel H. resize_red Ha. peel Ha.
  injection Ha as <-. cbn in H. injection H as <- <- <- <- <-.
  destruct (higher_primes_spec (nz data) ltac:(lia)) as [F [B M]].
  rewrite (asym_pad_lo_eq _ _ B), (asym_pad_hi_eq _ _ B) in Ha0, Ha1 |- *.
  fold lo hi in Ha0, Ha1 |- *.
  assert (Lo : 0 <= lo) by (apply Z.div_pos; lia).
  assert (Hi : 0 <= hi) by (apply Z.div_pos; lia).
  assert (LH : lo + hi = higher_primes (nz data) - nz data)
    by (unfold lo, hi; apply half_split; lia).
  clearbody lo hi.
  destruct (zero_pad_correct data lo hi 0 0 0 0 false)
    as [d [Hd [Dz [Dy [Dx Dc]]]]]; try lia.
  destruct (zero_pad_correct mask lo hi 0 0 0 0 true)
    as [m [Hm [Nz [Ny [Nx Nc]]]]]; try lia.
  rewrite Hd in Ha0. injection Ha0 as <-. rewrite Hm in Ha1. injection Ha1 as <-.
  assert (E : nz d = higher_primes (nz data)) by lia.
  split; [reflexivity|]. split; [exact E|]. rewrite E.
  split; [exact F|]. split; [exact B|]. split; [exact M|].
  split; [lia|]. split; [lia|]. split; [lia|]. split; [lia|]. split; [lia|]. split.
  - intros z y x Iz Iy Ix. rewrite Dc, Nc. unfold in_window. rewrite Mz, My, Mx.
    replace ((lo <=? z + lo) && (z + lo <? lo + nz data))
      with true by (symmetry; rewrite andb_true_iff, Z.leb_le, Z.ltb_lt; lia).
    replace ((0 <=? y) && (y <? 0 + ny data)) with true
      by (symmetry; rewrite andb_true_iff, Z.leb_le, Z.ltb_lt; lia).
    replace ((0 <=? x) && (x <? 0 + nx data)) with true
      by (symmetry; rewrite andb_true_iff, Z.leb_le, Z.ltb_lt; lia).
    simpl. split; f_equal; lia.
  - intros z y x Out. rewrite Dc, Nc. unfold in_window. rewrite Mz.
    replace ((lo <=? z) && (z <? lo + nz data)) with false
      by (symmetry; apply andb_false_iff;
          destruct Out; [left; apply Z.leb_gt | right; apply Z.ltb_ge]; lia).
    split; reflexivity.
Qed.

Lemma center_fft_pad_asym_Z_shape_witness :
  exists d' m' q' f',
    center_fft (peak_volume 5 (2, 2, 2)) (peak_volume 5 (2, 2, 2)) detector_full
      [1; 1; 1; 1; 1] "max" "pad_asym_Z" [] [] None = Ok (d', m', [1; 0; 0; 0; 0; 0], q', f') /\
    nz d' = 6 /\ cell d' 3 2 2 = 5%Q /\ cell m' 0 2 2 = 1%Q.
Proof.
  assert (Hp : cfft_prelude (peak_volume 5 (2, 2, 2)) detector_full "max" [] None
               = Ok ((2, 2, 2), ([], [], []))) by (vm_compute; reflexivity).
  assert (H6 : higher_primes 5 = 6) by (vm_compute; reflexivity).
  destruct (center_fft (peak_volume 5 (2, 2, 2)) (peak_volume 5 (2, 2, 2)) detector_full
              [1; 1; 1; 1; 1] "max" "pad_asym_Z" [] [] None)
    as [[[[[d' m'] pw] q'] f']|e] eqn:Hc; [|vm_compute in Hc; discriminate Hc].
  destruct (center_fft_pad_asym_Z_shape _ (peak_volume 5 (2, 2, 2)) _ [1; 1; 1; 1; 1] _ _ [] _
              2 2 2 _ d' m' pw q' f' Hp)
    as [Hpw [Hnz [_ [_ [_ [_ [_ [_ [_ [_ [Hin Hout]]]]]]]]]]]; try (simpl; lia); [exact Hc|].
  change (nz (peak_volume 5 (2, 2, 2))) with 5 in Hpw, Hnz, Hin, Hout.
  rewrite H6 in Hpw, Hnz, Hin, Hout. simpl in Hpw, Hin, Hout.
  subst pw. exists d', m', q', f'.
  split; [reflexivity|]. split; [exact Hnz|]. split.
  - destruct (Hin 2 2 2) as [Hd _]; try lia. exact Hd.
  - destruct (Hout 0 2 2) as [_ Hm]; [left; reflexivity|]. exact Hm.
Defined.

Lemma half_split_parity d e : 0 <= d -> 0 <= e < 2 ->
  (d + e) / 2 + d / 2 = d - d mod 2 * (1 - e).
Proof.
  intros Hd He.
  pose proof (Z.mod_pos_bound d 2 ltac:(lia)). pose proof (Z.div_mod d 2 ltac:(lia)).
  assert (E : d mod 2 = 0 \/ d mod 2 = 1) by lia.
  assert (F : e = 0 \/ e = 1) by lia.
  destruct E as [E|E], F as [-> | ->]; rewrite E.
  - replace (d + 0) with (2 * (d / 2) + 0) by lia. rewrite div2_eq by lia. lia.
  - replace (d + 1) with (2 * (d / 2) + 1) by lia. rewrite div2_eq by lia. lia.
  - replace (d + 0) with (2 * (d / 2) + 1) by lia. rewrite div2_eq by lia. lia.
  - replace (d + 1) with (2 * (d / 2 + 1) + 0) by lia. rewrite div2_eq by lia. lia.
Qed.

(** Under [fft_option = "pad_asym_ZYX"] the padding in front of axis 1
    is computed with the parity of [pad_size[1] - nby] where the other
    axes use [ny1 - nby], with [ny1 = higher_primes(nby)]: a successful
    [center_fft] pads axes 0 and 2 to [higher_primes(nbz)] and
    [higher_primes(nbx)], but axis 1 to [ny1 - 1] when [ny1 - nby] is odd
    and [pad_size[1] - nby] even, an odd size that is not FFT-compatible. *)
Theorem center_fft_pad_asym_ZYX_axis1_parity data mask det frames centering fb p0 p1 rest q
    iz iy ix qs d' m' pw q' f' :
  cfft_prelude data det centering fb q = Ok ((iz, iy, ix), qs) ->
  0 < iz < nz data -> 0 < iy < ny data -> 0 < ix < nx data ->
  center_fft data mask det frames centering "pad_asym_ZYX" fb (p0 :: p1 :: rest) q
  = Ok (d', m', pw, q', f') ->
  let dy := higher_primes (ny data) - ny data in
  nz d' = higher_primes (nz data) /\ nx d' = higher_primes (nx data) /\
  ny d' = higher_primes (ny data) - dy mod 2 * (1 - (p1 - ny data) mod 2) /\
  (dy mod 2 = 1 -> (p1 - ny data) mod 2 = 0 -> fft_ok (ny d') = false).
Proof.
  intros Hp Hz Hy Hx H dy. destruct qs as [[qx qz] qy].
  pose proof (center_fft_valid _ _ _ _ _ _ _ _ _ _ H) as Hv.
  rewrite (center_fft_reduce _ _ _ _ _ _ _ _ _ _ _ _ _ _ _ Hv Hp) in H. unfold max_box in H.
  rewrite effective_option_nondegenerate in H by lia.
  peel H. resize_red Ha. peel Ha.
  injection Ha as <-. cbn in H. injection H as <- <- <- <- <-.
  rewrite (py_get_nth _ (p0 :: p1 :: rest) 1 p1 ltac:(lia) eq_refl) in Ha0. injection Ha0 as <-.
  destruct (higher_primes_spec (nz data) ltac:(lia)) as [Fz [Bz _]].
  destruct (higher_primes_spec (ny data) ltac:(lia)) as [Fy [By _]].
  destruct (higher_primes_spec (nx data) ltac:(lia)) as [Fx [Bx _]].
  pose proof (Z.mod_pos_bound (p1 - ny data) 2 ltac:(lia)).
  rewrite (asym_pad_lo_eq _ _ Bz), (asym_pad_hi_eq _ _ Bz), (asym_pad_lo_eq _ _ Bx),
    (asym_pad_hi_eq _ _ Bx), (asym_pad_hi_eq _ _ By), py_int_half in Ha1 by lia.
  destruct (zero_pad_correct data ((higher_primes (nz data) - nz data + 1) / 2)
              ((higher_primes (nz data) - nz data) / 2)
              ((higher_primes (ny data) - ny data + (p1 - ny data) mod 2) / 2)
              ((higher_primes (ny data) - ny data) / 2)
              ((higher_primes (nx data) - nx data + 1) / 2)
              ((higher_primes (nx data) - nx data) / 2) false)
    as [d [Hd [Dz [Dy [Dx _]]]]]; try lia; try (apply Z.div_pos; lia).
  rewrite Hd in Ha1. injection Ha1 as <-.
  pose proof (half_split (higher_primes (nz data) - nz data) ltac:(lia)).
  pose proof (half_split (higher_primes (nx data) - nx data) ltac:(lia)).
  pose proof (half_split_parity dy ((p1 - ny data) mod 2) ltac:(unfold dy; lia) ltac:(lia)).
  unfold dy in *.
  assert (Ey : ny d = higher_primes (ny data)
                      - (higher_primes (ny data) - ny data) mod 2 * (1 - (p1 - ny data) mod 2))
    by lia.
  split; [lia|]. split; [lia|]. split; [exact Ey|].
  intros Od Ep. rewrite Ey, Od, Ep.
  destruct (fft_ok_pos _ Fy) as [_ Ev]. apply Z.even_spec in Ev as [k Ek].
  rewrite Ek. unfold fft_ok.
  replace (Z.even (2 * k - 1 * (1 - 0))) with false; [rewrite andb_false_r; reflexivity|].
  replace (2 * k - 1 * (1 - 0)) with (1 + 2 * (k - 1)) by lia.
  rewrite Z.even_add_mul_2. reflexivity.
Qed.

Lemma center_fft_pad_asym_ZYX_axis1_parity_witness :
  exists d' m' pw q' f',
    center_fft (peak_volume 5 (2, 2, 2)) (peak_volume 5 (2, 2, 2)) detector_full
      [1; 1; 1; 1; 1] "max" "pad_asym_ZYX" [] [8; 7; 8] None = Ok (d', m', pw, q', f') /\
    nz d' = 6 /\ nx d' = 6 /\ ny d' = 5 /\ fft_ok (ny d') = false.
Proof.
  assert (Hp : cfft_prelude (peak_volume 5 (2, 2, 2)) detector_full "max" [] None
               = Ok ((2, 2, 2), ([], [], []))) by (vm_compute; reflexivity).
  assert (H6 : higher_primes 5 = 6) by (vm_compute; reflexivity).
  destruct (center_fft (peak_volume 5 (2, 2, 2)) (peak_volume 5 (2, 2, 2)) detector_full
              [1; 1; 1; 1; 1] "max" "pad_asym_ZYX" [] [8; 7; 8] None)
    as [[[[[d' m'] pw] q'] f']|e] eqn:Hc; [|vm_compute in Hc; discriminate Hc].
  pose proof (center_fft_pad_asym_ZYX_axis1_parity _ (peak_volume 5 (2, 2, 2)) _
                [1; 1; 1; 1; 1] _ [] 8 7 [8] _ 2 2 2 _ d' m' pw q' f' Hp
                ltac:(simpl; lia) ltac:(simpl; lia) ltac:(simpl; lia) Hc) as T.
  cbv zeta in T. destruct T as [Hz [Hx [Hy Hf]]].
  change (nz (peak_volume 5 (2, 2, 2))) with 5 in Hz.
  change (ny (peak_volume 5 (2, 2, 2))) with 5 in Hy, Hf.
  change (nx (peak_volume 5 (2, 2, 2))) with 5 in Hx.
  rewrite H6 in Hz, Hx, Hy, Hf. simpl in Hy, Hf.
  exists d', m', pw, q', f'.
  split; [reflexivity|]. split; [exact Hz|]. split; [exact Hx|]. split; [exact Hy|].
  apply Hf; reflexivity.
Defined.
